(** * Employee CRUD API: a model of [src/main.ts]

    The development embeds the in-memory [EmployeeStore] class, the
    [validateCreateEmployee] middleware and the mutating Express routes, and
    states the properties of the accompanying specification against them.

    Modelling choices, all taken from the source:
    - a JavaScript object is a finite map from property names to values
      ([gmap string value]); object spread is a biased union;
    - the ES [Map] held by the store is an insertion-ordered association
      list keyed by JavaScript values compared with SameValueZero;
    - [uuidv4()], [new Date()] and the [faker] generators are inputs of the
      operations that call them;
    - a request body is the object that [express.json()] hands to the
      route, whatever properties it has: the TypeScript interfaces are
      erased at run time;
    - JSON numbers are rationals, [page] and [limit] (results of
      [parseInt]) are integers;
    - a string is the sequence of the UTF-8 bytes of its text; the listing
      route sees [parseInt] results that may also be [NaN] or infinite. *)

From Stdlib Require Import QArith Qround Ascii.
From stdpp Require Import gmap strings list fin_maps pretty.

Local Set Warnings "-register-all".
Local Open Scope Z_scope.

(** ** JavaScript values *)

Module Js.

Inductive value : Type :=
  | VUndefined
  | VNull
  | VBool (b : bool)
  | VNum (q : Q)
  | VStr (s : string)
  | VDate (ms : Z)
  | VArr (items : list value)
  | VObj (props : gmap string value).

(** Plain objects: request bodies and employee records. *)
Abbreviation obj := (gmap string value).

(** Property read [o.k]: a missing property reads as [undefined]. *)
Definition prop (o : obj) (k : string) : value := default VUndefined (o !! k).

(** Object spread [{...a, ...b}]: the properties of [b] win. *)
Definition spread (a b : obj) : obj := b ∪ a.

(** ToBoolean, as used by the [!x] tests. *)
Definition truthy (v : value) : bool :=
  match v with
  | VUndefined | VNull => false
  | VBool b => b
  | VNum q => negb (Qeq_bool q 0)
  | VStr s => negb (String.eqb s "")
  | VDate _ | VArr _ | VObj _ => true
  end.

Definition typeof (v : value) : string :=
  match v with
  | VUndefined => "undefined"
  | VBool _ => "boolean"
  | VNum _ => "number"
  | VStr _ => "string"
  | VNull | VDate _ | VArr _ | VObj _ => "object"
  end.

(** [v < n] for a number [v].  The program only evaluates the comparison
    after [typeof v === 'number'] has been established, so the coercions
    of the other cases are not modelled. *)
Definition lt_number (v : value) (n : Q) : bool :=
  match v with
  | VNum q => negb (Qle_bool n q)
  | _ => false
  end.

(** SameValueZero, the key equality of [Map].  Dates, arrays and objects
    are compared by reference; such a key can only come from a freshly
    parsed request body and is therefore the same as no other key. *)
Definition same_value_zero (a b : value) : bool :=
  match a, b with
  | VUndefined, VUndefined => true
  | VNull, VNull => true
  | VBool x, VBool y => Bool.eqb x y
  | VNum x, VNum y => Qeq_bool x y
  | VStr x, VStr y => String.eqb x y
  | _, _ => false
  end.

(** [Array.prototype.slice(start, end)] with integer arguments: negative
    indices count from the end, and both ends are clamped to the length. *)
Definition slice {A} (l : list A) (start fin : Z) : list A :=
  let len := Z.of_nat (length l) in
  let k := if start <? 0 then Z.max (len + start) 0 else Z.min start len in
  let final := if fin <? 0 then Z.max (len + fin) 0 else Z.min fin len in
  take (Z.to_nat (Z.max (final - k) 0)) (drop (Z.to_nat k) l).

(** [Math.ceil(a / b)] on integers [a] and [b]. *)
Definition ceil_div (a b : Z) : Z := Qceiling (inject_Z a / inject_Z b).

End Js.

(** ** The ES [Map]: insertion-ordered, keyed by SameValueZero *)

Module EsMap.
Import Js.

Abbreviation t V := (list (value * V)).

Section ops.
Context {V : Type}.

Fixpoint get (k : value) (m : t V) : option V :=
  match m with
  | [] => None
  | (k', v) :: m' => if same_value_zero k' k then Some v else get k m'
  end.

(** [set] on a key that is present replaces the value where it stands;
    a new key goes to the end. *)
Fixpoint set (k : value) (v : V) (m : t V) : t V :=
  match m with
  | [] => [(k, v)]
  | (k', v') :: m' =>
      if same_value_zero k' k then (k', v) :: m' else (k', v') :: set k v m'
  end.

(** [delete] reports whether an entry was removed. *)
Fixpoint delete (k : value) (m : t V) : bool * t V :=
  match m with
  | [] => (false, [])
  | (k', v') :: m' =>
      if same_value_zero k' k then (true, m')
      else let r := delete k m' in (r.1, (k', v') :: r.2)
  end.

Definition size (m : t V) : nat := length m.

Definition keys (m : t V) : list value := m.*1.

(** [Array.from(m.values())]: the values in insertion order. *)
Definition values (m : t V) : list V := m.*2.

(** No two entries have the same key. *)
Fixpoint wf (m : t V) : bool :=
  match m with
  | [] => true
  | (k, _) :: m' => forallb (fun e => negb (same_value_zero e.1 k)) m' && wf m'
  end.
End ops.

End EsMap.

(** ** The store *)

Module EmployeeStore.
Import Js.

(** The private field [employees]. *)
Abbreviation store := (EsMap.t obj).

(** One round of generator calls of [seedData]. *)
Record seed_draw : Type := SeedDraw {
  d_uuid : string;          (* uuidv4() *)
  d_firstName : string;     (* faker.person.firstName() *)
  d_lastName : string;      (* faker.person.lastName() *)
  d_email : string;         (* faker.internet.email() *)
  d_jobTitle : string;      (* faker.person.jobTitle() *)
  d_department : string;    (* faker.commerce.department() *)
  d_salary : Z;             (* faker.number.int({ min: 30000, max: 150000 }) *)
  d_past : Z;               (* faker.date.past({ years: 10 }) *)
  d_boolean : bool          (* faker.datatype.boolean({ probability: 0.9 }) *)
}.

Definition seed_employee (d : seed_draw) : obj :=
  {[ "id" := VStr (d_uuid d);
     "firstName" := VStr (d_firstName d);
     "lastName" := VStr (d_lastName d);
     "email" := VStr (d_email d);
     "position" := VStr (d_jobTitle d);
     "department" := VStr (d_department d);
     "salary" := VNum (inject_Z (d_salary d));
     "hireDate" := VDate (d_past d);
     "isActive" := VBool (d_boolean d) ]}.

Definition seed_entry (d : seed_draw) : value * obj :=
  (prop (seed_employee d) "id", seed_employee d).

(** The body of [for (let i = ...; i < ...; i++)], with [fuel] rounds
    left; [draw i] is what the generators return in round [i]. *)
Fixpoint seed_loop (draw : nat → seed_draw) (i fuel : nat) (s : store) : store :=
  match fuel with
  | O => s
  | S fuel' =>
      let employee := seed_employee (draw i) in
      seed_loop draw (S i) fuel' (EsMap.set (prop employee "id") employee s)
  end.

Definition seed_count : nat := Z.to_nat 10000.

Definition seedData (draw : nat → seed_draw) (s : store) : store :=
  seed_loop draw 0 seed_count s.

(** [new EmployeeStore()]: an empty map, then [seedData]. *)
Definition new (draw : nat → seed_draw) : store := seedData draw [].

(** [create]: [{ id: uuidv4(), ...employeeData, hireDate: new Date(),
    isActive: true }], stored under [employee.id]. *)
Definition create (uuid : string) (now : Z) (employeeData : obj) (s : store)
  : obj * store :=
  let employee :=
    <["isActive" := VBool true]>
      (<["hireDate" := VDate now]>
         (spread {["id" := VStr uuid]} employeeData)) in
  (employee, EsMap.set (prop employee "id") employee s).

Definition findById (id : string) (s : store) : option obj :=
  EsMap.get (VStr id) s.

Record pagination_info : Type := Pagination {
  page : Z;
  limit : Z;
  total : Z;
  totalPages : Z;
  hasNext : bool;
  hasPrev : bool
}.

Record paginated_response : Type := Paginated {
  data : list obj;
  pagination : pagination_info
}.

(** [findAll]; the route always passes both arguments, so the defaults of
    the signature are not used. *)
Definition findAll (page limit : Z) (s : store) : paginated_response :=
  let allEmployees := EsMap.values s in
  let total := Z.of_nat (length allEmployees) in
  let totalPages := ceil_div total limit in
  let startIndex := (page - 1) * limit in
  let endIndex := startIndex + limit in
  let data := slice allEmployees startIndex endIndex in
  Paginated data
    (Pagination page limit total totalPages (page <? totalPages) (1 <? page)).

(** [update]: [null] for an unknown id, else [{...employee, ...updateData}]
    stored under the id of the call. *)
Definition update (id : string) (updateData : obj) (s : store)
  : option obj * store :=
  match EsMap.get (VStr id) s with
  | None => (None, s)
  | Some employee =>
      let updatedEmployee := spread employee updateData in
      (Some updatedEmployee, EsMap.set (VStr id) updatedEmployee s)
  end.

Definition delete (id : string) (s : store) : bool * store :=
  EsMap.delete (VStr id) s.

Definition count (s : store) : nat := EsMap.size s.

End EmployeeStore.

(** ** The request layer *)

Module Api.
Import Js.
Import EmployeeStore.

(** [res.status(n).json(body)]. *)
Record response : Type := Response { status : Z; body : value }.

Definition error_body (msg : string) : value := VObj {["error" := VStr msg]}.

(** The middleware: [Some r] when it answers itself, [None] when it calls
    [next()]. *)
Definition validateCreateEmployee (req_body : obj) : option response :=
  let firstName := prop req_body "firstName" in
  let lastName := prop req_body "lastName" in
  let email := prop req_body "email" in
  let position := prop req_body "position" in
  let department := prop req_body "department" in
  let salary := prop req_body "salary" in
  if negb (truthy firstName) || negb (truthy lastName) || negb (truthy email)
     || negb (truthy position) || negb (truthy department)
     || negb (String.eqb (typeof salary) "number")
  then Some (Response 400 (error_body
    "Missing required fields: firstName, lastName, email, position, department, salary"))
  else if lt_number salary 0
  then Some (Response 400 (error_body "Salary must be a positive number"))
  else None.

(** GET /employees/:id *)
Definition get_employee (id : string) (s : store) : response * store :=
  match findById id s with
  | None => (Response 404 (error_body "Employee not found"), s)
  | Some employee => (Response 200 (VObj employee), s)
  end.

(** POST /employees, behind [validateCreateEmployee]. *)
Definition post_employees (uuid : string) (now : Z) (req_body : obj) (s : store)
  : response * store :=
  match validateCreateEmployee req_body with
  | Some r => (r, s)
  | None =>
      let r := create uuid now req_body s in
      (Response 201 (VObj r.1), r.2)
  end.

(** PUT /employees/:id *)
Definition put_employee (id : string) (req_body : obj) (s : store)
  : response * store :=
  let r := update id req_body s in
  match r.1 with
  | None => (Response 404 (error_body "Employee not found"), r.2)
  | Some updatedEmployee => (Response 200 (VObj updatedEmployee), r.2)
  end.

(** DELETE /employees/:id *)
Definition delete_employee (id : string) (s : store) : response * store :=
  let r := delete id s in
  if r.1
  then (Response 200 (VObj {["message" := VStr "Employee deleted successfully"]}), r.2)
  else (Response 404 (error_body "Employee not found"), r.2).

(** GET /health *)
Definition health (s : store) : response * store :=
  (Response 200 (VObj {[ "status" := VStr "OK";
                         "employeeCount" := VNum (inject_Z (Z.of_nat (count s))) ]}), s).

(** The requests that reach the store, each with the values the clock and
    the uuid generator return while it is served.  The listing route
    GET /employees only reads the table through [findAll]. *)
Inductive request : Type :=
  | GET (id : string)
  | POST (uuid : string) (now : Z) (req_body : obj)
  | PUT (id : string) (req_body : obj)
  | DELETE (id : string)
  | HEALTH.

Definition handle (r : request) (s : store) : response * store :=
  match r with
  | GET id => get_employee id s
  | POST uuid now req_body => post_employees uuid now req_body s
  | PUT id req_body => put_employee id req_body s
  | DELETE id => delete_employee id s
  | HEALTH => health s
  end.

(** The store after a sequence of requests. *)
Definition serve (rs : list request) (s : store) : store :=
  fold_left (fun st r => (handle r st).2) rs s.

End Api.

(** ** The listing route *)

Module Listing.
Import Js.
Import EmployeeStore.

(** The numbers the listing route computes with: [parseInt] returns [NaN],
    an integer that a double holds, or an infinity ([Inf true] is the
    negative one). *)
Inductive num : Type :=
  | NaN
  | Int (z : Z)
  | Inf (negative : bool).

(** The double nearest to an integer, ties to the even mantissa: integers
    up to 2^53 in magnitude are kept, larger ones lose their low bits, and
    from 2^1024 on the result is an infinity. *)
Definition to_double (z : Z) : num :=
  let a := Z.abs z in
  if a <=? 2 ^ 53 then Int z
  else
    let e := Z.log2 a - 52 in
    let q := a / 2 ^ e in
    let r := a mod 2 ^ e in
    let half := 2 ^ (e - 1) in
    let q' :=
      if r <? half then q
      else if half <? r then q + 1
      else if Z.even q then q else q + 1 in
    let m := q' * 2 ^ e in
    if 2 ^ 1024 <=? m then Inf (z <? 0) else Int (Z.sgn z * m).

(** [a + b], [a - b] and [a * b].  On integers the result is the exact
    one, as in [EmployeeStore.findAll]: the route only uses it as a slice
    index, and an index beyond 2^53 lies beyond the end of any array
    whether it is rounded or not. *)
Definition num_add (a b : num) : num :=
  match a, b with
  | Int x, Int y => Int (x + y)
  | Inf n, Int _ | Int _, Inf n => Inf n
  | Inf n, Inf n' => if Bool.eqb n n' then Inf n else NaN
  | _, _ => NaN
  end.

Definition num_neg (a : num) : num :=
  match a with
  | NaN => NaN
  | Int x => Int (- x)
  | Inf n => Inf (negb n)
  end.

Definition num_sub (a b : num) : num := num_add a (num_neg b).

Definition num_mul (a b : num) : num :=
  match a, b with
  | Int x, Int y => Int (x * y)
  | Inf n, Int y | Int y, Inf n =>
      if y =? 0 then NaN else Inf (xorb n (y <? 0))
  | Inf n, Inf n' => Inf (xorb n n')
  | _, _ => NaN
  end.

(** [a < b]: false as soon as one side is [NaN]. *)
Definition num_lt (a b : num) : bool :=
  match a, b with
  | Int x, Int y => x <? y
  | Int _, Inf n' => negb n'
  | Inf n, Int _ => n
  | Inf n, Inf n' => n && negb n'
  | _, _ => false
  end.

(** [Math.ceil(a / b)].  A zero divisor is not modelled: the route rejects
    [limit < 1] before it calls [findAll]. *)
Definition ceil_quot (a b : num) : num :=
  match a, b with
  | Int x, Int y => Int (ceil_div x y)
  | Int _, Inf _ => Int 0
  | Inf n, Int y => Inf (xorb n (y <? 0))
  | _, _ => NaN
  end.

(** An argument of [slice] made an index into an array of length [len]:
    ToIntegerOrInfinity, then the clamping of [Array.prototype.slice]. *)
Definition relative_index (len : Z) (a : num) : Z :=
  match a with
  | NaN => Z.min 0 len
  | Inf true => 0
  | Inf false => len
  | Int z => if z <? 0 then Z.max (len + z) 0 else Z.min z len
  end.

Definition slice_js {A} (l : list A) (start fin : num) : list A :=
  let len := Z.of_nat (length l) in
  let k := relative_index len start in
  let final := relative_index len fin in
  take (Z.to_nat (Z.max (final - k) 0)) (drop (Z.to_nat k) l).

(** Strings are the UTF-8 bytes of the text. *)
Definition byte (c : Ascii.ascii) : Z := Z.of_N (Ascii.N_of_ascii c).

(** The white space of one byte: tab, line feed, vertical tab, form feed,
    carriage return, space. *)
Definition is_space1 (b1 : Z) : bool :=
  ((9 <=? b1) && (b1 <=? 13)) || (b1 =? 32).

(** U+00A0. *)
Definition is_space2 (b1 b2 : Z) : bool := (b1 =? 194) && (b2 =? 160).

(** U+1680, U+2000 to U+200A, U+2028, U+2029, U+202F, U+205F, U+3000 and
    U+FEFF. *)
Definition is_space3 (b1 b2 b3 : Z) : bool :=
  ((b1 =? 225) && (b2 =? 154) && (b3 =? 128))
  || ((b1 =? 226) && (b2 =? 128)
      && (((128 <=? b3) && (b3 <=? 138)) || (b3 =? 168) || (b3 =? 169)
          || (b3 =? 175)))
  || ((b1 =? 226) && (b2 =? 129) && (b3 =? 159))
  || ((b1 =? 227) && (b2 =? 128) && (b3 =? 128))
  || ((b1 =? 239) && (b2 =? 187) && (b3 =? 191)).

(** The string without its leading white space and line terminators. *)
Fixpoint skip_spaces (s : string) : string :=
  match s with
  | EmptyString => EmptyString
  | String c1 r1 =>
      if is_space1 (byte c1) then skip_spaces r1
      else
        match r1 with
        | EmptyString => s
        | String c2 r2 =>
            if is_space2 (byte c1) (byte c2) then skip_spaces r2
            else
              match r2 with
              | EmptyString => s
              | String c3 r3 =>
                  if is_space3 (byte c1) (byte c2) (byte c3)
                  then skip_spaces r3 else s
              end
        end
  end.

Definition digit_of (c : Ascii.ascii) : option Z :=
  let n := byte c in
  if (48 <=? n) && (n <=? 57) then Some (n - 48) else None.

(** The value of the longest prefix of decimal digits, [None] when there
    is no digit. *)
Fixpoint digits (s : string) (acc : option Z) : option Z :=
  match s with
  | String c s' =>
      match digit_of c with
      | Some d => digits s' (Some (10 * default 0 acc + d))
      | None => acc
      end
  | EmptyString => acc
  end.

(** [parseInt(s, 10)]: leading white space, an optional sign, then decimal
    digits; what follows the digits is ignored, no digit gives [NaN], and
    the number read is the double nearest to it. *)
Definition parseInt (s : string) : num :=
  let s1 := skip_spaces s in
  let signed :=
    match s1 with
    | String "-"%char r => (-1, r)
    | String "+"%char r => (1, r)
    | _ => (1, s1)
    end in
  match digits signed.2 None with
  | None => NaN
  | Some m => to_double (signed.1 * m)
  end.

(** [q || d] for a query parameter given at most once: absent and empty
    both give [d]. *)
Definition or_default (q : option string) (d : string) : string :=
  match q with
  | Some s => if String.eqb s "" then d else s
  | None => d
  end.

Record pagination_js : Type := PaginationJs {
  js_page : num;
  js_limit : num;
  js_total : num;
  js_totalPages : num;
  js_hasNext : bool;
  js_hasPrev : bool
}.

Record paginated_js : Type := PaginatedJs {
  js_data : list obj;
  js_pagination : pagination_js
}.

(** [findAll] as the route calls it, on numbers that may be [NaN] or
    infinite. *)
Definition findAll_js (page limit : num) (s : store) : paginated_js :=
  let allEmployees := EsMap.values s in
  let total := Int (Z.of_nat (length allEmployees)) in
  let totalPages := ceil_quot total limit in
  let startIndex := num_mul (num_sub page (Int 1)) limit in
  let endIndex := num_add startIndex limit in
  let data := slice_js allEmployees startIndex endIndex in
  PaginatedJs data
    (PaginationJs page limit total totalPages
       (num_lt page totalPages) (num_lt (Int 1) page)).

(** A result of the integer [findAll] read as a route body. *)
Definition of_paginated (r : paginated_response) : paginated_js :=
  PaginatedJs (data r)
    (PaginationJs (Int (page (pagination r))) (Int (limit (pagination r)))
       (Int (total (pagination r))) (Int (totalPages (pagination r)))
       (hasNext (pagination r)) (hasPrev (pagination r))).

Record list_response : Type := ListResponse {
  list_status : Z;
  list_body : paginated_js
}.

(** The body sent with status 400. *)
Definition rejected_body : paginated_js :=
  PaginatedJs [] (PaginationJs (Int 0) (Int 0) (Int 0) (Int 0) false false).

(** GET /employees, with the [page] and [limit] query parameters. *)
Definition get_employees (query_page query_limit : option string) (s : store)
  : list_response * store :=
  let page := parseInt (or_default query_page "1") in
  let limit := parseInt (or_default query_limit "10") in
  if num_lt page (Int 1) || num_lt limit (Int 1) || num_lt (Int 100) limit
  then (ListResponse 400 rejected_body, s)
  else (ListResponse 200 (findAll_js page limit s), s).

End Listing.

Import Js EmployeeStore Api.
Import Listing.

(** The properties of [interface CreateEmployeeRequest]. *)
Definition creatable_fields : gset string :=
  {[ "firstName"; "lastName"; "email"; "position"; "department"; "salary" ]}.

(** A record carries a salary that is a non-negative number. *)
Definition salary_nonneg (e : obj) : Prop :=
  ∃ q : Q, e !! "salary" = Some (VNum q) ∧ (0 <= q)%Q.

(** Every record in the table does. *)
Definition salaries_nonneg (s : store) : Prop :=
  ∀ e, e ∈ EsMap.values s → salary_nonneg e.

(** Requests that are not PUT. *)
Definition not_put (r : request) : bool :=
  match r with PUT _ _ => false | _ => true end.

(** Requests whose body, if they have one, has no [id] property, as the
    declared body types have none. *)
Definition carries_no_id (r : request) : bool :=
  match r with
  | POST _ _ req_body | PUT _ req_body => bool_decide (req_body !! "id" = None)
  | _ => true
  end.

(** Every entry is keyed by a string, which is the [id] of its record. *)
Definition stored_under_own_id (s : store) : Prop :=
  ∀ k e, (k, e) ∈ s → ∃ id : string, k = VStr id ∧ e !! "id" = Some (VStr id).

(** The five text fields of a create body are all truthy. *)
Definition text_fields_present (req_body : obj) : Prop :=
  truthy (prop req_body "firstName") = true
  ∧ truthy (prop req_body "lastName") = true
  ∧ truthy (prop req_body "email") = true
  ∧ truthy (prop req_body "position") = true
  ∧ truthy (prop req_body "department") = true.

(** ** Sample inputs *)

Module Examples.

Definition john : obj :=
  {[ "firstName" := VStr "John";
     "lastName" := VStr "Doe";
     "email" := VStr "john.doe@example.com";
     "position" := VStr "Software Engineer";
     "department" := VStr "Engineering";
     "salary" := VNum 75000 ]}.

Definition jane : obj :=
  {[ "firstName" := VStr "Jane";
     "lastName" := VStr "Smith";
     "email" := VStr "jane.smith@example.com";
     "position" := VStr "Product Manager";
     "department" := VStr "Product";
     "salary" := VNum 85000 ]}.

Definition only_first_name : obj := {[ "firstName" := VStr "John" ]}.

Definition raise : obj := {[ "salary" := VNum 80000 ]}.

Definition negative_salary : obj := {[ "salary" := VNum (-1) ]}.

Definition other_id : obj := {[ "id" := VStr "emp-9" ]}.

(** The body of [john] with a negative salary. *)
Definition john_underpaid : obj := <["salary" := VNum (-1)]> john.

(** Requests with bodies of the declared types, none of them a PUT: on a
    table that holds [emp-1] and [emp-2] they leave [emp-2] and [emp-3]. *)
Definition create_and_delete : list request :=
  [POST "emp-3" 1751582907000 john; GET "emp-1"; DELETE "emp-1"; HEALTH].

(** Requests with bodies of the declared types. *)
Definition create_and_raise : list request :=
  [POST "emp-1" 1751582905508 john; PUT "emp-1" raise; DELETE "emp-7"].

(** Query parameters of the listing route. *)
Definition query_two : option string := Some "2".
Definition query_zero : option string := Some "0".
Definition query_word : option string := Some "abc".

(** The page parameter [%C2%A02]: a no-break space, then the digit 2. *)
Definition query_nbsp_two : option string :=
  Some (String (Ascii.ascii_of_N 194) (String (Ascii.ascii_of_N 160) "2")).

(** A page parameter of 400 digits. *)
Definition query_huge : option string :=
  Some (String.concat "" (replicate 400 "9")).

(** A valid create body that also names an id. *)
Definition john_as_emp2 : obj := <["id" := VStr "emp-2"]> john.

(** Two records created one after the other in an empty map. *)
Definition store1 : store := (create "emp-1" 1751582905508 john []).2.
Definition store2 : store := (create "emp-2" 1751582906000 jane store1).2.

(** Generator results for [seedData]: distinct ids, salaries within the
    range asked of [faker], hire dates in the past, the first record
    inactive. *)
Definition draw0 (i : nat) : seed_draw :=
  SeedDraw (pretty i) "Ann" "Lee" "ann.lee@example.com" "Engineer" "Tools"
           (30000 + Z.of_nat i) 1600000000000 (negb (Nat.eqb i 0)).

End Examples.


(** ** Facts about the ES [Map] model *)

#[local] Arguments same_value_zero : simpl never.

Section es_map_facts.
Context {V : Type}.
Implicit Types (m : EsMap.t V) (k : value) (v : V).

Lemma svz_string_l k (id : string) :
  same_value_zero k (VStr id) = true ↔ k = VStr id.
Proof.
  destruct k; unfold same_value_zero; try (split; [discriminate | congruence]).
  rewrite String.eqb_eq. split; congruence.
Qed.

Lemma svz_string_refl (id : string) : same_value_zero (VStr id) (VStr id) = true.
Proof. by apply svz_string_l. Qed.

Lemma svz_string_ne (a b : string) :
  a ≠ b → same_value_zero (VStr a) (VStr b) = false.
Proof.
  intros Hne. destruct (same_value_zero _ _) eqn:E; [|done].
  apply svz_string_l in E. congruence.
Qed.

(** A key that is not found is the key of no entry. *)
Lemma get_None_Forall k m :
  EsMap.get k m = None ↔ Forall (λ e, same_value_zero e.1 k = false) m.
Proof.
  induction m as [|[k' v'] m IH]; simpl.
  - split; [constructor | done].
  - destruct (same_value_zero k' k) eqn:E.
    + split; [done | inversion 1; simplify_eq/=; congruence].
    + rewrite IH. split; [by constructor | by inversion 1].
Qed.

Lemma get_app k m1 m2 :
  EsMap.get k (m1 ++ m2) =
    match EsMap.get k m1 with Some v => Some v | None => EsMap.get k m2 end.
Proof.
  induction m1 as [|[k' v'] m1 IH]; simpl; [done|].
  by destruct (same_value_zero k' k).
Qed.

(** A key that is found sits at a first position. *)
Lemma get_Some_split k m v :
  EsMap.get k m = Some v →
  ∃ m1 k' m2, m = m1 ++ (k', v) :: m2 ∧ EsMap.get k m1 = None
              ∧ same_value_zero k' k = true.
Proof.
  induction m as [|[k' v'] m IH]; simpl; [done|].
  destruct (same_value_zero k' k) eqn:E.
  - intros [= ->]. by exists [], k', m.
  - intros (m1 & k'' & m2 & -> & Hm1 & Hk)%IH.
    exists ((k', v') :: m1), k'', m2. simpl. by rewrite E.
Qed.

Lemma set_fresh k v m :
  EsMap.get k m = None → EsMap.set k v m = m ++ [(k, v)].
Proof.
  induction m as [|[k' v'] m IH]; simpl; [done|].
  destruct (same_value_zero k' k); [done|]. intros ?. by rewrite IH.
Qed.


Lemma delete_fresh k m :
  EsMap.get k m = None → EsMap.delete k m = (false, m).
Proof.
  induction m as [|[k' v'] m IH]; simpl; [done|].
  destruct (same_value_zero k' k); [done|]. intros ?. by rewrite IH.
Qed.

Lemma delete_at k k' v0 m1 m2 :
  EsMap.get k m1 = None → same_value_zero k' k = true →
  EsMap.delete k (m1 ++ (k', v0) :: m2) = (true, m1 ++ m2).
Proof.
  intros Hm1 Hk. induction m1 as [|[k1 v1] m1 IH]; simpl in *.
  - by rewrite Hk.
  - destruct (same_value_zero k1 k); [done|]. by rewrite IH.
Qed.

Lemma get_set_same (id : string) v m :
  EsMap.get (VStr id) (EsMap.set (VStr id) v m) = Some v.
Proof.
  induction m as [|[k' v'] m IH]; simpl.
  - by rewrite svz_string_refl.
  - destruct (same_value_zero k' (VStr id)) eqn:E; simpl; by rewrite E.
Qed.

Lemma get_set_other (a b : string) v m :
  a ≠ b → EsMap.get (VStr b) (EsMap.set (VStr a) v m) = EsMap.get (VStr b) m.
Proof.
  intros Hne. induction m as [|[k' v'] m IH]; simpl.
  - by rewrite svz_string_ne.
  - destruct (same_value_zero k' (VStr a)) eqn:E; simpl.
    + apply svz_string_l in E as ->. by rewrite svz_string_ne.
    + by rewrite IH.
Qed.

Lemma get_Some_elem k m v : EsMap.get k m = Some v → v ∈ EsMap.values m.
Proof.
  intros (m1 & k' & m2 & -> & _ & _)%get_Some_split.
  unfold EsMap.values. rewrite fmap_app, fmap_cons. set_solver.
Qed.

Lemma wf_app_r m1 m2 : EsMap.wf (m1 ++ m2) = true → EsMap.wf m2 = true.
Proof.
  induction m1 as [|[k v] m1 IH]; simpl; [done|].
  intros [_ ?]%andb_true_iff. by apply IH.
Qed.

(** In a well-formed map the entries after a key do not carry it again. *)
Lemma wf_get_after (id : string) v m1 m2 :
  EsMap.wf (m1 ++ (VStr id, v) :: m2) = true → EsMap.get (VStr id) m2 = None.
Proof.
  intros Hwf%wf_app_r. simpl in Hwf. apply andb_true_iff in Hwf as [Hall _].
  apply get_None_Forall, Forall_forall. intros e He.
  rewrite forallb_forall in Hall. apply negb_true_iff, Hall.
  by apply list_elem_of_In.
Qed.

End es_map_facts.

(** ** Store operations and string ids *)

Section store_facts.
Implicit Types (s : store) (id uuid : string) (e : obj).

Lemma not_key_get_None {V} (m : EsMap.t V) id :
  VStr id ∉ EsMap.keys m → EsMap.get (VStr id) m = None.
Proof.
  intros Hnot. apply get_None_Forall, Forall_forall. intros [k v] Hin.
  destruct (same_value_zero k (VStr id)) eqn:E; [|done].
  apply svz_string_l in E as ->. exfalso. apply Hnot.
  unfold EsMap.keys. apply list_elem_of_fmap. by exists (VStr id, v).
Qed.

Lemma key_get_Some {V} (m : EsMap.t V) id :
  VStr id ∈ EsMap.keys m → is_Some (EsMap.get (VStr id) m).
Proof.
  destruct (EsMap.get (VStr id) m) eqn:E; [by eexists|].
  intros ([k v] & Hk & Hin)%list_elem_of_fmap. simpl in Hk. subst k.
  rewrite get_None_Forall, Forall_forall in E. specialize (E _ Hin).
  simpl in E. by rewrite svz_string_refl in E.
Qed.

(** A record found under a string id stands at a first position under
    exactly that key. *)
Lemma findById_split s id e :
  findById id s = Some e →
  ∃ s1 s2, s = s1 ++ (VStr id, e) :: s2 ∧ EsMap.get (VStr id) s1 = None.
Proof.
  intros (s1 & k' & s2 & -> & Hs1 & ->%svz_string_l)%get_Some_split.
  by exists s1, s2.
Qed.

(** The record built by [create]. *)
Lemma create_record uuid now (employeeData : obj) s :
  (create uuid now employeeData s).1 =
    <["isActive" := VBool true]>
      (<["hireDate" := VDate now]> (employeeData ∪ {["id" := VStr uuid]})).
Proof. reflexivity. Qed.

Lemma create_id uuid now (employeeData : obj) s :
  employeeData !! "id" = None →
  prop (create uuid now employeeData s).1 "id" = VStr uuid.
Proof.
  intros Hid. rewrite create_record. unfold prop.
  rewrite !lookup_insert_ne by done.
  by rewrite lookup_union_r, lookup_singleton_eq.
Qed.

Lemma creatable_no_id (employeeData : obj) :
  dom employeeData ⊆ creatable_fields → employeeData !! "id" = None.
Proof.
  intros Hdom. apply not_elem_of_dom. intros Hin%Hdom.
  unfold creatable_fields in Hin.
  rewrite !elem_of_union, !elem_of_singleton in Hin. intuition discriminate.
Qed.

Lemma create_append uuid now (employeeData : obj) s :
  employeeData !! "id" = None → findById uuid s = None →
  (create uuid now employeeData s).2 =
    s ++ [(VStr uuid, (create uuid now employeeData s).1)].
Proof.
  intros Hid Hfresh.
  change ((create uuid now employeeData s).2) with
    (EsMap.set (prop (create uuid now employeeData s).1 "id")
               (create uuid now employeeData s).1 s).
  rewrite create_id by done. by apply set_fresh.
Qed.

End store_facts.

(** ** Keys stay distinct *)

Section es_map_wf.
Context {V : Type}.
Implicit Types (m : EsMap.t V) (k : value) (v : V).

Lemma svz_sym (a b : value) : same_value_zero a b = same_value_zero b a.
Proof.
  destruct a, b; unfold same_value_zero; try done.
  - by destruct b, b0.
  - apply eq_true_iff_eq. rewrite !Qeq_bool_iff. split; intros ->; reflexivity.
  - apply String.eqb_sym.
Qed.

Lemma forallb_key_set (P : value → bool) k v m :
  P k = true → forallb (λ e, P e.1) m = true →
  forallb (λ e, P e.1) (EsMap.set k v m) = true.
Proof.
  intros Hk. induction m as [|[k' v'] m IH]; simpl.
  - by rewrite Hk.
  - intros [Hk' Hm]%andb_true_iff.
    destruct (same_value_zero k' k); simpl in *; rewrite Hk'; simpl; auto.
Qed.

Lemma forallb_key_delete (P : value * V → bool) k m :
  forallb P m = true → forallb P (EsMap.delete k m).2 = true.
Proof.
  induction m as [|[k' v'] m IH]; simpl; [done|].
  intros [Hk' Hm]%andb_true_iff.
  destruct (same_value_zero k' k); simpl; [done|].
  rewrite Hk'. simpl. auto.
Qed.

Lemma wf_set k v m : EsMap.wf m = true → EsMap.wf (EsMap.set k v m) = true.
Proof.
  induction m as [|[k' v'] m IH]; simpl; [done|].
  intros [Hk' Hm]%andb_true_iff.
  destruct (same_value_zero k' k) eqn:E; simpl.
  - by rewrite Hk', Hm.
  - rewrite IH by done. rewrite andb_true_r.
    apply (forallb_key_set (λ x, negb (same_value_zero x k'))); [|done].
    by rewrite svz_sym, E.
Qed.

Lemma wf_delete k m : EsMap.wf m = true → EsMap.wf (EsMap.delete k m).2 = true.
Proof.
  induction m as [|[k' v'] m IH]; simpl; [done|].
  intros [Hk' Hm]%andb_true_iff.
  destruct (same_value_zero k' k) eqn:E; simpl; [done|].
  rewrite IH by done. rewrite andb_true_r. by apply forallb_key_delete.
Qed.

(** What [set] and [delete] leave in the map was there before, or is the
    value just stored. *)
Lemma values_set k v m v' :
  v' ∈ EsMap.values (EsMap.set k v m) → v' = v ∨ v' ∈ EsMap.values m.
Proof.
  unfold EsMap.values. induction m as [|[k' v0] m IH]; simpl.
  - rewrite list_elem_of_singleton. auto.
  - destruct (same_value_zero k' k); simpl; rewrite !elem_of_cons.
    + tauto.
    + intros [?|?%IH]; tauto.
Qed.

Lemma values_delete k m v' :
  v' ∈ EsMap.values (EsMap.delete k m).2 → v' ∈ EsMap.values m.
Proof.
  unfold EsMap.values. induction m as [|[k' v0] m IH]; simpl; [done|].
  destruct (same_value_zero k' k); simpl; rewrite !elem_of_cons; tauto.
Qed.

End es_map_wf.

(** Every route hands back a table without repeated keys when it is given
    one. *)
Lemma handle_wf (r : request) (s : store) :
  EsMap.wf s = true → EsMap.wf (handle r s).2 = true.
Proof.
  intros Hwf. destruct r as [id|uuid now req_body|id req_body|id|]; simpl.
  - unfold get_employee. by destruct (findById id s).
  - unfold post_employees.
    destruct (validateCreateEmployee req_body); [done|]. by apply wf_set.
  - unfold put_employee, update.
    destruct (EsMap.get (VStr id) s); simpl; [by apply wf_set | done].
  - unfold delete_employee, delete.
    destruct (EsMap.delete (VStr id) s).1 eqn:E; simpl; by apply wf_delete.
  - done.
Qed.

Lemma serve_wf (rs : list request) (s : store) :
  EsMap.wf s = true → EsMap.wf (serve rs s) = true.
Proof.
  revert s. induction rs as [|r rs IH]; intros s Hwf; [done|].
  simpl. apply IH. by apply handle_wf.
Qed.

Section es_map_compose.
Context {V : Type}.
Implicit Types (m : EsMap.t V) (k : value) (v : V).

Lemma set_set (id : string) v1 v2 m :
  EsMap.set (VStr id) v2 (EsMap.set (VStr id) v1 m) = EsMap.set (VStr id) v2 m.
Proof.
  induction m as [|[k' v'] m IH]; simpl.
  - by rewrite svz_string_refl.
  - destruct (same_value_zero k' (VStr id)) eqn:E; simpl; rewrite E; [done|].
    by rewrite IH.
Qed.

Lemma keys_set_present k v m :
  is_Some (EsMap.get k m) → EsMap.keys (EsMap.set k v m) = EsMap.keys m.
Proof.
  unfold EsMap.keys. induction m as [|[k' v'] m IH]; simpl.
  - by intros [? ?].
  - destruct (same_value_zero k' k); simpl; [done|]. intros ?.
    f_equal. by apply IH.
Qed.

(** Storing under one key leaves the lookup of a string that is not that
    key as it was. *)
Lemma get_set_other_key k (id' : string) v m :
  same_value_zero k (VStr id') = false →
  EsMap.get (VStr id') (EsMap.set k v m) = EsMap.get (VStr id') m.
Proof.
  intros Hne. induction m as [|[k' v'] m IH]; simpl.
  - by rewrite Hne.
  - destruct (same_value_zero k' k) eqn:E; simpl; [|by rewrite IH].
    destruct (same_value_zero k' (VStr id')) eqn:E'; [|done].
    apply svz_string_l in E' as ->.
    rewrite svz_sym in E. apply not_true_iff_false in Hne. by destruct Hne.
Qed.

Lemma set_same_value (id : string) v m :
  EsMap.get (VStr id) m = Some v → EsMap.set (VStr id) v m = m.
Proof.
  induction m as [|[k' v'] m IH]; simpl; [done|].
  destruct (same_value_zero k' (VStr id)); [by intros [= ->]|].
  intros ?. by rewrite IH.
Qed.

End es_map_compose.



(** [create] stores the record under the record's [id]. *)
Lemma create_stored_under uuid now (employeeData : obj) (s : store) (id0 : string) :
  (create uuid now employeeData s).1 !! "id" = Some (VStr id0) →
  (create uuid now employeeData s).2
    = EsMap.set (VStr id0) (create uuid now employeeData s).1 s.
Proof.
  intros Hid.
  change ((create uuid now employeeData s).2) with
    (EsMap.set (prop (create uuid now employeeData s).1 "id")
               (create uuid now employeeData s).1 s).
  unfold prop. by rewrite Hid.
Qed.

Lemma create_uuid_id uuid now (employeeData : obj) (s : store) :
  employeeData !! "id" = None →
  (create uuid now employeeData s).1 !! "id" = Some (VStr uuid).
Proof.
  intros Hid. rewrite create_record, !lookup_insert_ne by done.
  by rewrite lookup_union_r, lookup_singleton_eq.
Qed.

(** ** Lookup, update and delete of ids *)

Section crud.
Implicit Types (s : store) (id uuid : string) (e : obj).

(** C7: for an id that is the key of no entry, [findById] returns
    [undefined], [update] returns [null] and [delete] returns [false], and
    the table handed back by [update] and [delete] is the table they were
    given ([findById] has no table to hand back). *)
Theorem unknown_id_not_found s id (partialFields : obj) :
  VStr id ∉ EsMap.keys s →
  findById id s = None
  ∧ update id partialFields s = (None, s)
  ∧ delete id s = (false, s).
Proof.
  intros Hget%not_key_get_None. unfold findById, update, delete.
  rewrite Hget. split_and!; [done | done | by apply delete_fresh].
Qed.

(** C8: in a table without repeated keys, [delete] of a present id
    returns [true]; afterwards the id is not found, the count is one less,
    and the table is the old one with that single entry taken out, so that
    every other id is found as before. *)
Theorem delete_existing s id :
  EsMap.wf s = true → VStr id ∈ EsMap.keys s →
  (delete id s).1 = true
  ∧ findById id (delete id s).2 = None
  ∧ S (count (delete id s).2) = count s
  ∧ (∃ s1 e s2, s = s1 ++ (VStr id, e) :: s2 ∧ (delete id s).2 = s1 ++ s2)
  ∧ (∀ id', id' ≠ id → findById id' (delete id s).2 = findById id' s).
Proof.
  intros Hwf [e (s1 & s2 & -> & Hs1)%findById_split]%key_get_Some.
  unfold delete. rewrite delete_at by auto using svz_string_refl. simpl.
  split_and!.
  - done.
  - unfold findById. rewrite get_app, Hs1. by eapply wf_get_after.
  - unfold count, EsMap.size. rewrite !length_app. simpl. lia.
  - by exists s1, e, s2.
  - intros id' Hne. unfold findById. rewrite !get_app. simpl.
    by rewrite svz_string_ne.
Qed.

(** C2, amended: [update] of a stored record returns and stores the shallow
    merge of the record and the payload: a property the payload has takes
    the payload's value, a property it lacks keeps the stored value.  The
    [id] of the record is kept whenever the payload has no [id] property. *)
Theorem update_shallow_merge s id e (partialFields : obj) :
  findById id s = Some e →
  ∃ u, (update id partialFields s).1 = Some u
     ∧ findById id (update id partialFields s).2 = Some u
     ∧ (∀ k v, partialFields !! k = Some v → u !! k = Some v)
     ∧ (∀ k, partialFields !! k = None → u !! k = e !! k)
     ∧ (partialFields !! "id" = None → u !! "id" = e !! "id").
Proof.
  intros Hfind. unfold update. unfold findById in Hfind. rewrite Hfind.
  exists (spread e partialFields). simpl. unfold spread. split_and!.
  - done.
  - apply get_set_same.
  - intros k v Hk. by apply lookup_union_Some_l.
  - intros k Hk. by apply lookup_union_r.
  - intros Hk. by apply lookup_union_r.
Qed.

(** C6, amended: the record returned by [create] carries the time read at
    the call as [hireDate] and [isActive = true] whatever the payload
    holds.  For a payload made of the six creatable fields, the record's
    [id] is the generated uuid, the six fields are the payload's, and the
    record is found under that id afterwards.  The uuid is not checked
    against the table: when it is the key of no entry the count has grown
    by one, and when it is the key of an entry the record has taken that
    entry's place, the keys and the count being what they were. *)
Theorem create_contract s uuid now (employeeData : obj) :
  (create uuid now employeeData s).1 !! "hireDate" = Some (VDate now)
  ∧ (create uuid now employeeData s).1 !! "isActive" = Some (VBool true)
  ∧ (dom employeeData ⊆ creatable_fields →
     (create uuid now employeeData s).1 !! "id" = Some (VStr uuid)
     ∧ (∀ k, k ∈ creatable_fields →
             (create uuid now employeeData s).1 !! k = employeeData !! k)
     ∧ findById uuid (create uuid now employeeData s).2
         = Some (create uuid now employeeData s).1
     ∧ (VStr uuid ∉ EsMap.keys s →
          count (create uuid now employeeData s).2 = S (count s))
     ∧ (VStr uuid ∈ EsMap.keys s →
          EsMap.keys (create uuid now employeeData s).2 = EsMap.keys s
          ∧ count (create uuid now employeeData s).2 = count s)).
Proof.
  split_and!.
  - rewrite create_record. rewrite lookup_insert_ne by done.
    apply lookup_insert_eq.
  - rewrite create_record. apply lookup_insert_eq.
  - intros Hid%creatable_no_id.
    pose proof (create_uuid_id uuid now employeeData s Hid) as He.
    rewrite (create_stored_under _ _ _ _ _ He). split_and!.
    + done.
    + intros k Hk. rewrite create_record.
      unfold creatable_fields in Hk.
      rewrite !elem_of_union, !elem_of_singleton in Hk.
      rewrite !lookup_insert_ne by (intros <-; intuition discriminate).
      destruct (employeeData !! k) eqn:E.
      * by apply lookup_union_Some_l.
      * rewrite lookup_union_r by done. apply lookup_singleton_ne.
        intros <-. intuition discriminate.
    + apply get_set_same.
    + intros Hfresh%not_key_get_None. rewrite set_fresh by done.
      unfold count, EsMap.size. rewrite length_app. simpl. lia.
    + intros Hin%key_get_Some.
      assert (EsMap.keys (EsMap.set (VStr uuid) (create uuid now employeeData s).1 s)
              = EsMap.keys s) as Hkeys by by apply keys_set_present.
      split; [done|]. unfold count, EsMap.size.
      rewrite <- (length_fmap fst (EsMap.set _ _ _)), <- (length_fmap fst s).
      unfold EsMap.keys in Hkeys. by rewrite Hkeys.
Qed.


End crud.

(** ** The operations on sample tables *)

Import Examples.

(** Both sides of an equation between closed terms evaluate to the same
    value. *)
Ltac by_evaluation :=
  lazymatch goal with
  | |- ?a = ?b => vm_cast_no_check (@eq_refl _ b)
  end.

(** Membership of a string key in the keys of a closed table. *)
Ltac not_a_key :=
  let H := fresh in
  intros H; apply list_elem_of_In in H; vm_compute in H;
  repeat (destruct H as [H|H]; [discriminate H|]); exact H.

Ltac a_key :=
  apply list_elem_of_In; vm_compute; auto 10.

Lemma unknown_id_not_found_witness :
  findById "non-existent-id" store2 = None
  ∧ update "non-existent-id" raise store2 = (None, store2)
  ∧ delete "non-existent-id" store2 = (false, store2).
Proof. apply unknown_id_not_found. not_a_key. Defined.

Lemma delete_existing_witness :
  (delete "emp-1" store2).1 = true
  ∧ findById "emp-1" (delete "emp-1" store2).2 = None
  ∧ S (count (delete "emp-1" store2).2) = count store2
  ∧ (∃ s1 e s2, store2 = s1 ++ (VStr "emp-1", e) :: s2
                ∧ (delete "emp-1" store2).2 = s1 ++ s2)
  ∧ (∀ id', id' ≠ "emp-1" →
        findById id' (delete "emp-1" store2).2 = findById id' store2).
Proof. apply delete_existing; [by_evaluation | a_key]. Defined.

Lemma update_shallow_merge_witness :
  ∃ u, (update "emp-1" raise store2).1 = Some u
     ∧ findById "emp-1" (update "emp-1" raise store2).2 = Some u
     ∧ (∀ k v, raise !! k = Some v → u !! k = Some v)
     ∧ (∀ k, raise !! k = None → u !! k = (create "emp-1" 1751582905508 john []).1 !! k)
     ∧ (raise !! "id" = None → u !! "id" = (create "emp-1" 1751582905508 john []).1 !! "id").
Proof. apply update_shallow_merge. by_evaluation. Defined.

(** C2 as stated fails: a payload with an [id] property replaces the [id]
    of the stored record. *)
Lemma update_overwrites_id_counterexample :
  findById "emp-1" store1 ≫= (.!! "id") = Some (VStr "emp-1")
  ∧ (update "emp-1" other_id store1).1 ≫= (.!! "id") = Some (VStr "emp-9").
Proof. split; by_evaluation. Qed.

Lemma create_contract_witness :
  (create "emp-3" 1751582907000 john store2).1 !! "hireDate" = Some (VDate 1751582907000)
  ∧ (create "emp-3" 1751582907000 john store2).1 !! "isActive" = Some (VBool true)
  ∧ (create "emp-3" 1751582907000 john store2).1 !! "id" = Some (VStr "emp-3")
  ∧ (∀ k, k ∈ creatable_fields →
          (create "emp-3" 1751582907000 john store2).1 !! k = john !! k)
  ∧ findById "emp-3" (create "emp-3" 1751582907000 john store2).2
      = Some (create "emp-3" 1751582907000 john store2).1
  ∧ count (create "emp-3" 1751582907000 john store2).2 = S (count store2)
  ∧ EsMap.keys (create "emp-2" 1751582907000 john store2).2 = EsMap.keys store2
  ∧ count (create "emp-2" 1751582907000 john store2).2 = count store2.
Proof.
  destruct (create_contract store2 "emp-3" 1751582907000 john)
    as (Hdate & Hactive & Hrest).
  destruct Hrest as (Hid & Hfields & Hfind & Hfresh & _).
  { apply (bool_decide_unpack _). vm_compute. exact I. }
  destruct (create_contract store2 "emp-2" 1751582907000 john)
    as (_ & _ & Hagain).
  destruct Hagain as (_ & _ & _ & _ & Hpresent).
  { apply (bool_decide_unpack _). vm_compute. exact I. }
  split; [exact Hdate|]. split; [exact Hactive|]. split; [exact Hid|].
  split; [exact Hfields|]. split; [exact Hfind|].
  split; [apply Hfresh; not_a_key | apply Hpresent; a_key].
Defined.

(** C6 as stated fails when the generated uuid is the key of an entry:
    the record takes the place of the one stored under it, and the count
    stays at two. *)
Lemma create_repeated_uuid_counterexample :
  findById "emp-2" store2 ≫= (.!! "firstName") = Some (VStr "Jane")
  ∧ (create "emp-2" 1751582907000 john store2).1 !! "id" = Some (VStr "emp-2")
  ∧ findById "emp-2" (create "emp-2" 1751582907000 john store2).2
      ≫= (.!! "firstName") = Some (VStr "John")
  ∧ count store2 = 2%nat
  ∧ count (create "emp-2" 1751582907000 john store2).2 = 2%nat.
Proof. split_and!; by_evaluation. Qed.



(** ** Pagination *)

Section pagination.
Implicit Types (s : store) (page limit : Z).

Lemma ltb_bool_decide (a b : Z) : (a <? b) = bool_decide (a < b).
Proof.
  destruct (Z.ltb_spec a b); symmetry;
    [apply bool_decide_eq_true_2 | apply bool_decide_eq_false_2]; lia.
Qed.

(** [Math.ceil(a / b)] is the least integer whose product with [b] reaches
    [a]. *)
Lemma ceil_div_bounds (a b : Z) :
  0 < b → (ceil_div a b - 1) * b < a ≤ ceil_div a b * b.
Proof.
  intros Hb. destruct b as [|p|p]; try lia.
  unfold ceil_div, Qceiling, Qfloor, Qdiv, Qmult, Qinv, Qopp. simpl.
  rewrite ?Z.mul_1_r, ?Pos.mul_1_l.
  pose proof (Z.div_mod (- a) (Z.pos p) ltac:(lia)) as Hdm.
  pose proof (Z.mod_pos_bound (- a) (Z.pos p) ltac:(lia)) as Hmod.
  revert Hdm Hmod. generalize (- a / Z.pos p) (- a mod Z.pos p) (Z.pos p).
  intros q r b Hdm Hmod. nia.
Qed.

Lemma ceil_div_zero (b : Z) : 0 < b → ceil_div 0 b = 0.
Proof. intros Hb. pose proof (ceil_div_bounds 0 b Hb). nia. Qed.

(** For a window that starts at a non-negative index, [slice] drops the
    entries before the start and takes what the length allows. *)
Lemma slice_window {A} (l : list A) (start len : Z) :
  0 ≤ start → 0 ≤ len →
  slice l start (start + len) = take (Z.to_nat len) (drop (Z.to_nat start) l).
Proof.
  intros Hstart Hlen. unfold slice.
  destruct (start <? 0) eqn:E1; [lia|].
  destruct (start + len <? 0) eqn:E2; [lia|].
  destruct (decide (Z.of_nat (length l) ≤ start)) as [Hout|Hin].
  - rewrite !drop_ge by lia. by rewrite !take_nil.
  - replace (Z.min start (Z.of_nat (length l))) with start by lia.
    destruct (decide (start + len ≤ Z.of_nat (length l))) as [Hfit|Hcut].
    + f_equal. lia.
    + rewrite !take_ge; [done | rewrite length_drop; lia ..].
Qed.

(** C3: for [page ≥ 1] and [1 ≤ limit ≤ 100], the [data] of [findAll] is
    the run of at most [limit] records that starts at offset
    [(page - 1) * limit] of the insertion-ordered records: its [j]-th
    record is the record at offset plus [j], its length is
    [min(limit, max(0, total - offset))], and it is empty when the offset
    is at or past the total. *)
Theorem findAll_window s page limit :
  1 ≤ page → 1 ≤ limit ≤ 100 →
  data (findAll page limit s)
    = take (Z.to_nat limit) (drop (Z.to_nat ((page - 1) * limit)) (EsMap.values s))
  ∧ (∀ j : nat, Z.of_nat j < limit →
       data (findAll page limit s) !! j
         = EsMap.values s !! (Z.to_nat ((page - 1) * limit) + j)%nat)
  ∧ Z.of_nat (length (data (findAll page limit s)))
      = Z.min limit (Z.max 0 (Z.of_nat (count s) - (page - 1) * limit))
  ∧ (Z.of_nat (count s) ≤ (page - 1) * limit → data (findAll page limit s) = []).
Proof.
  intros Hpage Hlimit.
  assert (data (findAll page limit s)
    = take (Z.to_nat limit) (drop (Z.to_nat ((page - 1) * limit)) (EsMap.values s)))
    as Hdata.
  { unfold findAll. simpl. apply slice_window; nia. }
  assert (length (EsMap.values s) = count s) as Hlen.
  { unfold EsMap.values, count, EsMap.size. apply length_fmap. }
  rewrite Hdata. split_and!.
  - done.
  - intros j Hj. rewrite lookup_take_lt by lia. apply lookup_drop.
  - rewrite length_take, length_drop, Hlen. nia.
  - intros Hpast. rewrite drop_ge by (rewrite Hlen; lia). apply take_nil.
Qed.

(** C4: for [page ≥ 1] and [1 ≤ limit ≤ 100], the metadata of [findAll]
    echoes [page] and [limit], [total] is the size of the table,
    [totalPages] is the ceiling of [total / limit] (the least number of
    pages of [limit] records that hold [total] records, so 0 for an empty
    table), [hasNext] tells whether [page < totalPages] and [hasPrev]
    whether [page > 1]. *)
Theorem findAll_pagination s page limit :
  1 ≤ page → 1 ≤ limit ≤ 100 →
  EmployeeStore.page (pagination (findAll page limit s)) = page
  ∧ EmployeeStore.limit (pagination (findAll page limit s)) = limit
  ∧ total (pagination (findAll page limit s)) = Z.of_nat (count s)
  ∧ (totalPages (pagination (findAll page limit s)) - 1) * limit
      < Z.of_nat (count s)
      ≤ totalPages (pagination (findAll page limit s)) * limit
  ∧ totalPages (pagination (findAll page limit s))
      = (Z.of_nat (count s) + limit - 1) / limit
  ∧ (count s = 0%nat → totalPages (pagination (findAll page limit s)) = 0)
  ∧ hasNext (pagination (findAll page limit s))
      = bool_decide (page < totalPages (pagination (findAll page limit s)))
  ∧ hasPrev (pagination (findAll page limit s)) = bool_decide (page > 1).
Proof.
  intros Hpage Hlimit.
  assert (length (EsMap.values s) = count s) as Hlen.
  { unfold EsMap.values, count, EsMap.size. apply length_fmap. }
  unfold findAll. simpl. rewrite Hlen.
  pose proof (ceil_div_bounds (Z.of_nat (count s)) limit ltac:(lia)) as Hceil.
  split_and!; try done; try lia.
  - apply Z.div_unique
      with (r := Z.of_nat (count s) + limit - 1
                 - limit * ceil_div (Z.of_nat (count s)) limit); nia.
  - intros ->. apply ceil_div_zero. lia.
  - apply ltb_bool_decide.
  - rewrite ltb_bool_decide. apply bool_decide_ext. lia.
Qed.

End pagination.

Lemma findAll_window_witness :
  data (findAll 2 1 store2)
    = take (Z.to_nat 1) (drop (Z.to_nat ((2 - 1) * 1)) (EsMap.values store2))
  ∧ (∀ j : nat, Z.of_nat j < 1 →
       data (findAll 2 1 store2) !! j
         = EsMap.values store2 !! (Z.to_nat ((2 - 1) * 1) + j)%nat)
  ∧ Z.of_nat (length (data (findAll 2 1 store2)))
      = Z.min 1 (Z.max 0 (Z.of_nat (count store2) - (2 - 1) * 1))
  ∧ (Z.of_nat (count store2) ≤ (2 - 1) * 1 → data (findAll 2 1 store2) = []).
Proof. apply (findAll_window store2 2 1); lia. Defined.

Lemma findAll_pagination_witness :
  EmployeeStore.page (pagination (findAll 1 5 store2)) = 1
  ∧ EmployeeStore.limit (pagination (findAll 1 5 store2)) = 5
  ∧ total (pagination (findAll 1 5 store2)) = Z.of_nat (count store2)
  ∧ (totalPages (pagination (findAll 1 5 store2)) - 1) * 5
      < Z.of_nat (count store2)
      ≤ totalPages (pagination (findAll 1 5 store2)) * 5
  ∧ totalPages (pagination (findAll 1 5 store2))
      = (Z.of_nat (count store2) + 5 - 1) / 5
  ∧ (count store2 = 0%nat → totalPages (pagination (findAll 1 5 store2)) = 0)
  ∧ hasNext (pagination (findAll 1 5 store2))
      = bool_decide (1 < totalPages (pagination (findAll 1 5 store2)))
  ∧ hasPrev (pagination (findAll 1 5 store2)) = bool_decide (1 > 1).
Proof. apply (findAll_pagination store2 1 5); lia. Defined.

(** ** Validation of create requests *)

Section validation.
Implicit Types (s : store) (req_body : obj).

Lemma missing_is_falsy req_body (k : string) :
  req_body !! k = None → truthy (prop req_body k) = false.
Proof. intros Hk. unfold prop. by rewrite Hk. Qed.

Lemma negative_lt_zero (q : Q) : (q < 0)%Q → lt_number (VNum q) 0 = true.
Proof.
  intros Hq. simpl. apply negb_true_iff.
  destruct (Qle_bool 0 q) eqn:E; [|done].
  apply Qle_bool_iff in E. exfalso. by apply (Qlt_not_le q 0).
Qed.

(** The middleware answers 400 itself for a body that lacks one of the five
    text fields or whose salary is not a number or is negative. *)
Lemma validate_rejects req_body :
  req_body !! "firstName" = None ∨ req_body !! "lastName" = None
  ∨ req_body !! "email" = None ∨ req_body !! "position" = None
  ∨ req_body !! "department" = None
  ∨ (∀ q : Q, req_body !! "salary" ≠ Some (VNum q))
  ∨ (∃ q : Q, req_body !! "salary" = Some (VNum q) ∧ (q < 0)%Q) →
  ∃ r, validateCreateEmployee req_body = Some r ∧ status r = 400.
Proof.
  intros Hbad. unfold validateCreateEmployee.
  match goal with |- context [if ?c then _ else _] => destruct c eqn:Hguard end;
    [by eexists|].
  repeat (apply orb_false_iff in Hguard as [Hguard ?]).
  destruct Hbad as [H'|[H'|[H'|[H'|[H'|[H'|(q & H' & Hneg)]]]]]];
    try (apply missing_is_falsy in H'; rewrite H' in *; discriminate).
  - exfalso. unfold prop in *.
    destruct (req_body !! "salary") as [[]|]; simplify_eq/=. by eapply H'.
  - unfold prop at 1. rewrite H'. simpl default.
    rewrite negative_lt_zero by done. by eexists.
Qed.

(** C9: a create request whose body lacks [firstName], [lastName],
    [email], [position] or [department], or whose [salary] is not a number
    or is negative, is answered with status 400 by the validator; the route
    then hands back the table it was given, so the count is unchanged. *)
Theorem invalid_create_rejected s uuid now req_body :
  req_body !! "firstName" = None ∨ req_body !! "lastName" = None
  ∨ req_body !! "email" = None ∨ req_body !! "position" = None
  ∨ req_body !! "department" = None
  ∨ (∀ q : Q, req_body !! "salary" ≠ Some (VNum q))
  ∨ (∃ q : Q, req_body !! "salary" = Some (VNum q) ∧ (q < 0)%Q) →
  ∃ r, validateCreateEmployee req_body = Some r
     ∧ status r = 400
     ∧ post_employees uuid now req_body s = (r, s)
     ∧ count (post_employees uuid now req_body s).2 = count s.
Proof.
  intros (r & Hr & Hstatus)%validate_rejects. exists r.
  unfold post_employees. rewrite Hr. done.
Qed.

End validation.

(** The creation test of the suite: the body passes the validator and the
    route answers 201 with the new record. *)
Example post_john_created :
  validateCreateEmployee john = None
  ∧ status (post_employees "emp-3" 1751582907000 john store2).1 = 201
  ∧ count (post_employees "emp-3" 1751582907000 john store2).2 = 3%nat.
Proof. split_and!; by_evaluation. Qed.

(** Outside the declared payload type: the [id] of a body that has one
    replaces the generated uuid, and the record is stored under it, here in
    the place of the record that was there. *)
Example post_with_id_overwrites :
  status (post_employees "emp-3" 1751582907000 john_as_emp2 store2).1 = 201
  ∧ count (post_employees "emp-3" 1751582907000 john_as_emp2 store2).2 = 2%nat
  ∧ findById "emp-2" store2 ≫= (.!! "firstName") = Some (VStr "Jane")
  ∧ findById "emp-2" (post_employees "emp-3" 1751582907000 john_as_emp2 store2).2
      ≫= (.!! "firstName") = Some (VStr "John")
  ∧ findById "emp-3" (post_employees "emp-3" 1751582907000 john_as_emp2 store2).2
      = None.
Proof. split_and!; by_evaluation. Qed.

Lemma invalid_create_rejected_witness :
  ∃ r, validateCreateEmployee only_first_name = Some r
     ∧ status r = 400
     ∧ post_employees "emp-3" 1751582907000 only_first_name store2 = (r, store2)
     ∧ count (post_employees "emp-3" 1751582907000 only_first_name store2).2
         = count store2.
Proof.
  apply invalid_create_rejected. right; left. by_evaluation.
Defined.

(** ** Seeding *)

Lemma seed_employee_id (d : seed_draw) :
  prop (seed_employee d) "id" = VStr (d_uuid d).
Proof. reflexivity. Qed.

Lemma seed_count_succ : seed_count = S (Z.to_nat 9999).
Proof. unfold seed_count. lia. Qed.

Section seeding.
Variable draw : nat → seed_draw.

(** One more round of the loop stores one more record. *)
Lemma seed_loop_snoc (i fuel : nat) (s : store) :
  seed_loop draw i (S fuel) s
    = EsMap.set (VStr (d_uuid (draw (i + fuel)%nat))) (seed_employee (draw (i + fuel)%nat))
        (seed_loop draw i fuel s).
Proof.
  revert i s. induction fuel as [|fuel IH]; intros i s.
  - simpl. by rewrite Nat.add_0_r.
  - change (seed_loop draw i (S (S fuel)) s)
      with (seed_loop draw (S i) (S fuel)
              (EsMap.set (prop (seed_employee (draw i)) "id") (seed_employee (draw i)) s)).
    rewrite IH. by replace (S i + fuel)%nat with (i + S fuel)%nat by lia.
Qed.

(** With distinct uuids that are not yet keys, the loop appends the records
    in the order of the rounds. *)
Lemma seed_loop_entries (i fuel : nat) (s : store) :
  (∀ j, (i ≤ j < i + fuel)%nat → EsMap.get (VStr (d_uuid (draw j))) s = None) →
  (∀ j j', (i ≤ j < i + fuel)%nat → (i ≤ j' < i + fuel)%nat →
           d_uuid (draw j) = d_uuid (draw j') → j = j') →
  seed_loop draw i fuel s = s ++ ((λ j, seed_entry (draw j)) <$> seq i fuel).
Proof.
  revert i s. induction fuel as [|fuel IH]; intros i s Hfresh Hinj; simpl.
  - by rewrite app_nil_r.
  - rewrite seed_employee_id, set_fresh by (apply Hfresh; lia).
    rewrite IH.
    + by rewrite <- app_assoc.
    + intros j Hj. rewrite get_app, Hfresh by lia. simpl.
      rewrite svz_string_ne; [done|]. intros Heq%Hinj; lia.
    + intros j j' Hj Hj'. apply Hinj; lia.
Qed.

Hypothesis uuid_distinct :
  ∀ i j, (i < seed_count)%nat → (j < seed_count)%nat →
         d_uuid (draw i) = d_uuid (draw j) → i = j.

Lemma new_entries :
  new draw = (λ j, seed_entry (draw j)) <$> seq 0 seed_count.
Proof.
  unfold new, seedData. rewrite seed_loop_entries; [done | done |].
  intros j j' Hj Hj'. apply uuid_distinct; lia.
Qed.

Lemma new_lookup (i : nat) :
  (i < seed_count)%nat → new draw !! i = Some (seed_entry (draw i)).
Proof.
  intros Hi. rewrite new_entries, list_lookup_fmap, lookup_seq_lt by done.
  done.
Qed.

Lemma new_keys_NoDup : NoDup (EsMap.keys (new draw)).
Proof.
  unfold EsMap.keys. rewrite new_entries, <- list_fmap_compose.
  apply NoDup_fmap_2_strong; [|apply NoDup_seq].
  intros i j [_ Hi]%elem_of_seq [_ Hj]%elem_of_seq [= Heq].
  apply uuid_distinct; auto; lia.
Qed.

Lemma new_findById (i : nat) :
  (i < seed_count)%nat →
  findById (d_uuid (draw i)) (new draw) = Some (seed_employee (draw i)).
Proof.
  intros Hi. unfold findById.
  destruct (EsMap.get _ _) as [e|] eqn:E.
  - apply findById_split in E as (s1 & s2 & Hs & Hs1).
    assert (new draw !! length s1 = Some (VStr (d_uuid (draw i)), e)) as Hat.
    { rewrite Hs. by apply list_lookup_middle. }
    assert (length s1 < seed_count)%nat as Hlt.
    { apply lookup_lt_Some in Hat. rewrite new_entries in Hat.
      by rewrite length_fmap, length_seq in Hat. }
    rewrite new_lookup in Hat by done. injection Hat as Hid He.
    apply uuid_distinct in Hid; [|done..]. by subst.
  - rewrite get_None_Forall, Forall_forall in E.
    assert (seed_entry (draw i) ∈ new draw) as Hin.
    { apply list_elem_of_lookup. exists i. by apply new_lookup. }
    apply E in Hin. unfold seed_entry in Hin.
    rewrite seed_employee_id in Hin. simpl in Hin.
    by rewrite svz_string_refl in Hin.
Qed.

(** The listing test of the suite: the first page of five of the seeded
    table. *)
Lemma seeded_first_page :
  pagination (findAll 1 5 (new draw)) = Pagination 1 5 10000 2000 true false
  ∧ length (data (findAll 1 5 (new draw))) = 5%nat.
Proof.
  assert (length (EsMap.values (new draw)) = Z.to_nat 10000) as Hlen.
  { unfold EsMap.values. by rewrite new_entries, !length_fmap, length_seq. }
  unfold findAll. cbn [pagination data]. split.
  - by rewrite Hlen.
  - rewrite slice_window, length_take, length_drop, Hlen by lia. reflexivity.
Qed.

Hypothesis salary_range :
  ∀ i, (i < seed_count)%nat → 30000 ≤ d_salary (draw i) ≤ 150000.

Lemma seed_salary_nonneg (i : nat) :
  (i < seed_count)%nat → salary_nonneg (seed_employee (draw i)).
Proof.
  intros Hi. exists (inject_Z (d_salary (draw i))). split; [done|].
  change 0%Q with (inject_Z 0). rewrite <- Zle_Qle.
  pose proof (salary_range i Hi). lia.
Qed.

Lemma new_salaries_nonneg : salaries_nonneg (new draw).
Proof.
  unfold salaries_nonneg, EsMap.values.
  intros e ([k e'] & -> & Hin)%list_elem_of_fmap.
  apply list_elem_of_lookup in Hin as [i Hi].
  assert (i < seed_count)%nat as Hlt.
  { apply lookup_lt_Some in Hi. rewrite new_entries in Hi.
    by rewrite length_fmap, length_seq in Hi. }
  rewrite new_lookup in Hi by done. unfold seed_entry in Hi.
  injection Hi as _ <-. simpl. by apply seed_salary_nonneg.
Qed.

(** C5, amended: [seedData] runs 10000 rounds; with pairwise distinct
    generated uuids it leaves exactly 10000 records under pairwise distinct
    keys.  The record of round [i] stands at position [i], is stored under
    its own [id], and has the salary, hire date and activity flag that
    [faker] returned in that round: the salary lies in [30000, 150000]
    and so is non-negative, while [hireDate] and [isActive] are whatever
    was drawn, not the time of creation and [true]. *)
Theorem seed_populates :
  count (new draw) = Z.to_nat 10000
  ∧ NoDup (EsMap.keys (new draw))
  ∧ EsMap.wf (new draw) = true
  ∧ (∀ i, (i < Z.to_nat 10000)%nat →
       new draw !! i = Some (VStr (d_uuid (draw i)), seed_employee (draw i))
       ∧ findById (d_uuid (draw i)) (new draw) = Some (seed_employee (draw i)))
  ∧ (∀ k e, (k, e) ∈ new draw →
       prop e "id" = k ∧ salary_nonneg e
       ∧ ∃ i, (i < Z.to_nat 10000)%nat
            ∧ e !! "salary" = Some (VNum (inject_Z (d_salary (draw i))))
            ∧ e !! "hireDate" = Some (VDate (d_past (draw i)))
            ∧ e !! "isActive" = Some (VBool (d_boolean (draw i)))).
Proof.
  split_and!.
  - unfold count, EsMap.size. by rewrite new_entries, length_fmap, length_seq.
  - apply new_keys_NoDup.
  - unfold new, seedData. generalize seed_count 0%nat.
    intros fuel. generalize (@nil (value * obj)) (eq_refl : EsMap.wf (@nil (value * obj)) = true).
    induction fuel as [|fuel IH]; intros s Hs i; simpl; [done|].
    apply IH. by apply wf_set.
  - intros i Hi. split; [by apply new_lookup | by apply new_findById].
  - intros k e Hin. apply list_elem_of_lookup in Hin as [i Hi].
    assert (i < seed_count)%nat as Hlt.
    { apply lookup_lt_Some in Hi. rewrite new_entries in Hi.
      by rewrite length_fmap, length_seq in Hi. }
    rewrite new_lookup in Hi by done. injection Hi as <- <-.
    split_and!; [done | by apply seed_salary_nonneg |].
    exists i. by split_and!.
Qed.

End seeding.

Lemma draw0_uuid_distinct (i j : nat) :
  (i < seed_count)%nat → (j < seed_count)%nat →
  d_uuid (draw0 i) = d_uuid (draw0 j) → i = j.
Proof. intros _ _ Heq. simpl in Heq. by apply (inj pretty) in Heq. Qed.

Lemma seed_populates_witness :
  count (new draw0) = Z.to_nat 10000
  ∧ NoDup (EsMap.keys (new draw0))
  ∧ EsMap.wf (new draw0) = true
  ∧ (∀ i, (i < Z.to_nat 10000)%nat →
       new draw0 !! i = Some (VStr (d_uuid (draw0 i)), seed_employee (draw0 i))
       ∧ findById (d_uuid (draw0 i)) (new draw0) = Some (seed_employee (draw0 i)))
  ∧ (∀ k e, (k, e) ∈ new draw0 →
       prop e "id" = k ∧ salary_nonneg e
       ∧ ∃ i, (i < Z.to_nat 10000)%nat
            ∧ e !! "salary" = Some (VNum (inject_Z (d_salary (draw0 i))))
            ∧ e !! "hireDate" = Some (VDate (d_past (draw0 i)))
            ∧ e !! "isActive" = Some (VBool (d_boolean (draw0 i)))).
Proof.
  apply (seed_populates draw0).
  - exact draw0_uuid_distinct.
  - intros i Hi. unfold seed_count in Hi. simpl. lia.
Defined.

(** C5 as stated fails: the first seeded record is inactive, and its hire
    date is the past date that was drawn. *)
Lemma seed_inactive_counterexample :
  findById "0" (new draw0) ≫= (.!! "isActive") = Some (VBool false)
  ∧ findById "0" (new draw0) ≫= (.!! "hireDate") = Some (VDate 1600000000000).
Proof.
  change "0" with (d_uuid (draw0 0)).
  rewrite new_findById;
    [| exact draw0_uuid_distinct | rewrite seed_count_succ; lia].
  split; reflexivity.
Qed.

(** ** Salaries *)

Section salaries.
Implicit Types (s : store) (req_body : obj).

(** A body that passes the validator carries a non-negative salary. *)
Lemma validated_salary req_body :
  validateCreateEmployee req_body = None → salary_nonneg req_body.
Proof.
  unfold validateCreateEmployee.
  match goal with |- context [if ?c then _ else _] => destruct c eqn:Hguard end;
    [done|].
  repeat (apply orb_false_iff in Hguard as [Hguard ?]).
  unfold prop in *.
  destruct (req_body !! "salary") as [[| | |q| | | |]|] eqn:Hsalary;
    simplify_eq/=.
  destruct (Qle_bool 0 q) eqn:E; simpl; [|done]. intros _.
  exists q. split; [done|]. by apply Qle_bool_iff.
Qed.

Lemma create_keeps_salary uuid now req_body s :
  salary_nonneg req_body → salary_nonneg (create uuid now req_body s).1.
Proof.
  intros (q & Hq & Hpos). exists q. split; [|done].
  rewrite create_record, !lookup_insert_ne by done.
  by apply lookup_union_Some_l.
Qed.

(** Every route but PUT keeps the salaries in the table non-negative. *)
Lemma handle_salaries_nonneg (r : request) s :
  (∀ id req_body, r ≠ PUT id req_body) →
  salaries_nonneg s → salaries_nonneg (handle r s).2.
Proof.
  intros Hput Hs. destruct r as [id|uuid now req_body|id req_body|id|]; simpl.
  - unfold get_employee. by destruct (findById id s).
  - unfold post_employees.
    destruct (validateCreateEmployee req_body) eqn:Hvalid; [done|].
    intros e [->|He]%values_set; [|by apply Hs].
    apply (create_keeps_salary uuid now req_body s).
    by apply validated_salary.
  - by destruct (Hput id req_body).
  - unfold delete_employee, delete.
    destruct (EsMap.delete (VStr id) s).1; simpl;
      intros e He%values_delete; by apply Hs.
  - done.
Qed.

(** PUT of a stored id answers 200 and stores the merge of the record and
    the body, whatever the body holds. *)
Lemma put_stores_merge id e req_body s :
  findById id s = Some e →
  handle (PUT id req_body) s
    = (Response 200 (VObj (spread e req_body)),
       EsMap.set (VStr id) (spread e req_body) s).
Proof.
  intros Hfind. simpl. unfold put_employee, update.
  unfold findById in Hfind. by rewrite Hfind.
Qed.

Lemma put_then_find id e req_body s :
  findById id s = Some e →
  findById id (serve [PUT id req_body] s) = Some (spread e req_body).
Proof.
  intros Hfind. unfold serve. cbn [fold_left].
  rewrite (put_stores_merge id e req_body s Hfind). cbn [snd].
  apply get_set_same.
Qed.

(** Any stored record can be given the salary -1 through PUT. *)
Lemma put_negative_salary id e s :
  findById id s = Some e →
  status (handle (PUT id negative_salary) s).1 = 200
  ∧ findById id (serve [PUT id negative_salary] s) ≫= (.!! "salary")
      = Some (VNum (-1))
  ∧ ¬ salaries_nonneg (serve [PUT id negative_salary] s).
Proof.
  intros Hfind.
  pose proof (put_then_find id e negative_salary s Hfind) as Hafter.
  assert (spread e negative_salary !! "salary" = Some (VNum (-1))) as Hsalary.
  { unfold spread. by apply lookup_union_Some_l. }
  split_and!.
  - by rewrite (put_stores_merge id e negative_salary s Hfind).
  - rewrite Hafter. simpl. exact Hsalary.
  - intros Hall. apply get_Some_elem in Hafter.
    destruct (Hall _ Hafter) as (q & Hq & Hpos).
    rewrite Hsalary in Hq. injection Hq as <-. by apply Hpos.
Qed.

End salaries.

(** C1 fails on the code: on the seeded table, PUT /employees/0 with the
    body [{ salary: -1 }] is answered 200, and the record found under that
    id afterwards has salary -1. *)
Theorem put_negative_salary_accepted :
  status (handle (PUT "0" negative_salary) (new draw0)).1 = 200
  ∧ findById "0" (serve [PUT "0" negative_salary] (new draw0)) ≫= (.!! "salary")
      = Some (VNum (-1))
  ∧ ¬ salaries_nonneg (serve [PUT "0" negative_salary] (new draw0)).
Proof.
  apply (put_negative_salary "0" (seed_employee (draw0 0)) (new draw0)).
  change "0" with (d_uuid (draw0 0)).
  apply new_findById; [exact draw0_uuid_distinct | rewrite seed_count_succ; lia].
Qed.

(** ** How the store operations compose *)


Section store_compose.
Implicit Types (s : store) (id uuid : string) (e : obj).

(** X1: for a payload of the creatable fields and a uuid that is the key
    of no entry, deleting the id that [create] has just stored reports
    [true] and gives back the table as it was before the [create]. *)
Theorem create_then_delete s uuid now (employeeData : obj) :
  dom employeeData ⊆ creatable_fields → VStr uuid ∉ EsMap.keys s →
  delete uuid (create uuid now employeeData s).2 = (true, s).
Proof.
  intros Hid%creatable_no_id Hfresh%not_key_get_None.
  rewrite create_append by done. unfold delete.
  rewrite delete_at by auto using svz_string_refl. by rewrite app_nil_r.
Qed.

(** X2: two updates of a stored id in a row are one update with the two
    payloads merged, the later payload winning: the same record is returned
    and the same table is left. *)
Theorem update_twice s id e (first second : obj) :
  findById id s = Some e →
  update id second (update id first s).2 = update id (spread first second) s.
Proof.
  intros Hfind. unfold update, findById in *. rewrite Hfind. simpl.
  rewrite get_set_same, set_set. unfold spread.
  by rewrite (assoc_L (∪)).
Qed.

(** X3: an update with an empty payload returns the stored record and
    leaves the table as it was. *)
Theorem update_empty_payload s id e :
  findById id s = Some e → update id ∅ s = (Some e, s).
Proof.
  intros Hfind. unfold update, findById in *. rewrite Hfind.
  unfold spread. rewrite (left_id_L ∅ (∪)). by rewrite set_same_value.
Qed.

(** X4: [update] never adds, removes or moves a key, whatever the id and
    the payload, and the record found under any other id is the one that
    was found before. *)
Theorem update_frame s id (partialFields : obj) :
  EsMap.keys (update id partialFields s).2 = EsMap.keys s
  ∧ count (update id partialFields s).2 = count s
  ∧ (∀ id', id' ≠ id →
       findById id' (update id partialFields s).2 = findById id' s).
Proof.
  unfold update, findById.
  destruct (EsMap.get (VStr id) s) as [e|] eqn:Hfind; simpl; [|done].
  assert (EsMap.keys (EsMap.set (VStr id) (spread e partialFields) s)
          = EsMap.keys s) as Hkeys.
  { apply keys_set_present. by rewrite Hfind. }
  split_and!.
  - done.
  - unfold count, EsMap.size.
    rewrite <- (length_fmap fst (EsMap.set _ _ _)), <- (length_fmap fst s).
    unfold EsMap.keys in Hkeys. by rewrite Hkeys.
  - intros id' Hne. by apply get_set_other.
Qed.

(** X5: when the payload of [create] has a string [id], the record takes
    that id and not the generated uuid, and is stored under it: it is what
    that id finds afterwards, every other id finds what it found before,
    and a record that was stored under that id is replaced, the keys and
    the count staying as they were. *)
Theorem create_with_id s uuid now (employeeData : obj) (id0 : string) :
  employeeData !! "id" = Some (VStr id0) →
  (create uuid now employeeData s).1 !! "id" = Some (VStr id0)
  ∧ findById id0 (create uuid now employeeData s).2
      = Some (create uuid now employeeData s).1
  ∧ (∀ id', id' ≠ id0 →
       findById id' (create uuid now employeeData s).2 = findById id' s)
  ∧ (VStr id0 ∈ EsMap.keys s →
       EsMap.keys (create uuid now employeeData s).2 = EsMap.keys s
       ∧ count (create uuid now employeeData s).2 = count s).
Proof.
  intros Hid.
  assert ((create uuid now employeeData s).1 !! "id" = Some (VStr id0)) as He.
  { rewrite create_record, !lookup_insert_ne by done.
    by apply lookup_union_Some_l. }
  assert ((create uuid now employeeData s).2
          = EsMap.set (VStr id0) (create uuid now employeeData s).1 s) as Hs.
  { change ((create uuid now employeeData s).2) with
      (EsMap.set (prop (create uuid now employeeData s).1 "id")
                 (create uuid now employeeData s).1 s).
    unfold prop. by rewrite He. }
  rewrite Hs. split_and!.
  - done.
  - apply get_set_same.
  - intros id' Hne. by apply get_set_other.
  - intros Hin%key_get_Some.
    assert (EsMap.keys (EsMap.set (VStr id0) (create uuid now employeeData s).1 s)
            = EsMap.keys s) as Hkeys by by apply keys_set_present.
    split; [done|]. unfold count, EsMap.size.
    rewrite <- (length_fmap fst (EsMap.set _ _ _)), <- (length_fmap fst s).
    unfold EsMap.keys in Hkeys. by rewrite Hkeys.
Qed.

(** X6: when the payload of [update] has an [id] property, the returned
    record carries the payload's [id] but stays stored under the id of the
    call; the table key does not follow, so every other id, the new one
    included, finds what it found before. *)
Theorem update_with_id s id e (partialFields : obj) (v : value) :
  findById id s = Some e → partialFields !! "id" = Some v →
  ∃ u, (update id partialFields s).1 = Some u
     ∧ u !! "id" = Some v
     ∧ findById id (update id partialFields s).2 = Some u
     ∧ (∀ id', id' ≠ id →
          findById id' (update id partialFields s).2 = findById id' s).
Proof.
  intros Hfind Hid. unfold update, findById in *. rewrite Hfind. simpl.
  exists (spread e partialFields). split_and!.
  - done.
  - unfold spread. by apply lookup_union_Some_l.
  - apply get_set_same.
  - intros id' Hne. by apply get_set_other.
Qed.

End store_compose.

Lemma create_then_delete_witness :
  delete "emp-3" (create "emp-3" 1751582907000 john store2).2 = (true, store2).
Proof.
  apply create_then_delete;
    [apply (bool_decide_unpack _); vm_compute; exact I | not_a_key].
Defined.

Lemma update_twice_witness :
  update "emp-1" negative_salary (update "emp-1" raise store2).2
    = update "emp-1" (spread raise negative_salary) store2.
Proof.
  apply (update_twice store2 "emp-1" (create "emp-1" 1751582905508 john []).1).
  by_evaluation.
Defined.

Lemma update_empty_payload_witness :
  update "emp-1" ∅ store2 = (Some (create "emp-1" 1751582905508 john []).1, store2).
Proof. apply update_empty_payload. by_evaluation. Defined.

Lemma create_with_id_witness :
  (create "emp-3" 1751582907000 john_as_emp2 store2).1 !! "id" = Some (VStr "emp-2")
  ∧ findById "emp-2" (create "emp-3" 1751582907000 john_as_emp2 store2).2
      = Some (create "emp-3" 1751582907000 john_as_emp2 store2).1
  ∧ (∀ id', id' ≠ "emp-2" →
       findById id' (create "emp-3" 1751582907000 john_as_emp2 store2).2
         = findById id' store2)
  ∧ (VStr "emp-2" ∈ EsMap.keys store2 →
       EsMap.keys (create "emp-3" 1751582907000 john_as_emp2 store2).2
         = EsMap.keys store2
       ∧ count (create "emp-3" 1751582907000 john_as_emp2 store2).2 = count store2).
Proof. apply create_with_id. by_evaluation. Defined.

Lemma update_with_id_witness :
  ∃ u, (update "emp-1" other_id store2).1 = Some u
     ∧ u !! "id" = Some (VStr "emp-9")
     ∧ findById "emp-1" (update "emp-1" other_id store2).2 = Some u
     ∧ (∀ id', id' ≠ "emp-1" →
          findById id' (update "emp-1" other_id store2).2 = findById id' store2).
Proof.
  apply (update_with_id store2 "emp-1" (create "emp-1" 1751582905508 john []).1);
    by_evaluation.
Defined.

(** ** Pages of the table *)

Section pages.
Implicit Types (s : store) (page limit : Z).

Lemma findAll_data s page limit :
  1 ≤ page → 1 ≤ limit →
  data (findAll page limit s)
    = take (Z.to_nat limit) (drop (Z.to_nat ((page - 1) * limit)) (EsMap.values s)).
Proof. intros Hpage Hlimit. unfold findAll. simpl. apply slice_window; nia. Qed.

Lemma values_length s : length (EsMap.values s) = count s.
Proof. unfold EsMap.values, count, EsMap.size. apply length_fmap. Qed.

Lemma findAll_totalPages s page limit :
  totalPages (pagination (findAll page limit s)) = ceil_div (Z.of_nat (count s)) limit.
Proof. unfold findAll. simpl. by rewrite values_length. Qed.

(** A page has records exactly when its offset lies inside the table. *)
Lemma window_nonempty s page limit :
  1 ≤ page → 1 ≤ limit →
  data (findAll page limit s) ≠ [] ↔ (page - 1) * limit < Z.of_nat (count s).
Proof.
  intros Hpage Hlimit. rewrite findAll_data by done.
  rewrite <- length_zero_iff_nil, length_take, length_drop, values_length. nia.
Qed.

(** X7: for [page ≥ 1] and [limit ≥ 1], the page has at least one record
    exactly when [page ≤ totalPages]: no page up to [totalPages] is empty,
    every page after it is. *)
Theorem page_nonempty_iff s page limit :
  1 ≤ page → 1 ≤ limit →
  data (findAll page limit s) ≠ []
  ↔ page ≤ totalPages (pagination (findAll page limit s)).
Proof.
  intros Hpage Hlimit. rewrite window_nonempty, findAll_totalPages by done.
  pose proof (ceil_div_bounds (Z.of_nat (count s)) limit ltac:(lia)). nia.
Qed.

(** X8: for [page ≥ 1] and [limit ≥ 1], [hasNext] is true exactly when the
    next page has at least one record. *)
Theorem hasNext_iff_next_page s page limit :
  1 ≤ page → 1 ≤ limit →
  hasNext (pagination (findAll page limit s)) = true
  ↔ data (findAll (page + 1) limit s) ≠ [].
Proof.
  intros Hpage Hlimit. rewrite window_nonempty by lia.
  unfold findAll. simpl. rewrite values_length, Z.ltb_lt.
  pose proof (ceil_div_bounds (Z.of_nat (count s)) limit ltac:(lia)). nia.
Qed.

Lemma pages_prefix s limit (n : nat) :
  1 ≤ limit →
  concat ((λ p : nat, data (findAll (Z.of_nat (S p)) limit s)) <$> seq 0 n)
    = take (n * Z.to_nat limit) (EsMap.values s).
Proof.
  intros Hlimit. induction n as [|n IH].
  - done.
  - rewrite seq_S, fmap_app, concat_app, IH.
    change (concat (_ <$> [(0 + n)%nat]))
      with (data (findAll (Z.of_nat (S n)) limit s) ++ []).
    rewrite app_nil_r, findAll_data by lia.
    replace (Z.to_nat ((Z.of_nat (S n) - 1) * limit))
      with (n * Z.to_nat limit)%nat by nia.
    rewrite take_take_drop. f_equal. lia.
Qed.

(** X9: for [limit ≥ 1], the pages 1 to [totalPages], one after the other,
    are the records of the table in insertion order: no record is left out
    and none comes twice. *)
Theorem pages_cover_table s limit :
  1 ≤ limit →
  concat ((λ p : nat, data (findAll (Z.of_nat (S p)) limit s))
            <$> seq 0 (Z.to_nat (totalPages (pagination (findAll 1 limit s)))))
    = EsMap.values s.
Proof.
  intros Hlimit. rewrite pages_prefix by done. apply take_ge.
  rewrite findAll_totalPages, values_length.
  pose proof (ceil_div_bounds (Z.of_nat (count s)) limit ltac:(lia)). nia.
Qed.

End pages.

Lemma page_nonempty_iff_witness :
  data (findAll 2 1 store2) ≠ []
  ↔ 2 ≤ totalPages (pagination (findAll 2 1 store2)).
Proof. apply (page_nonempty_iff store2 2 1); lia. Defined.

Lemma hasNext_iff_next_page_witness :
  hasNext (pagination (findAll 1 1 store2)) = true
  ↔ data (findAll (1 + 1) 1 store2) ≠ [].
Proof. apply (hasNext_iff_next_page store2 1 1); lia. Defined.

Lemma pages_cover_table_witness :
  concat ((λ p : nat, data (findAll (Z.of_nat (S p)) 1 store2))
            <$> seq 0 (Z.to_nat (totalPages (pagination (findAll 1 1 store2)))))
    = EsMap.values store2.
Proof. apply (pages_cover_table store2 1); lia. Defined.

(** ** What the validator lets through *)

Section validator.
Implicit Types (req_body : obj).

Lemma lt_number_zero_false (q : Q) : lt_number (VNum q) 0 = false ↔ (0 <= q)%Q.
Proof. simpl. rewrite negb_false_iff. apply Qle_bool_iff. Qed.

(** The six tests of the first guard, read off the body. *)
Lemma first_guard_false req_body :
  negb (truthy (prop req_body "firstName")) || negb (truthy (prop req_body "lastName"))
  || negb (truthy (prop req_body "email")) || negb (truthy (prop req_body "position"))
  || negb (truthy (prop req_body "department"))
  || negb (String.eqb (typeof (prop req_body "salary")) "number") = false
  ↔ text_fields_present req_body ∧ ∃ q : Q, req_body !! "salary" = Some (VNum q).
Proof.
  unfold text_fields_present.
  rewrite !orb_false_iff, !negb_false_iff. unfold prop at 6 11.
  destruct (req_body !! "salary") as [[| | |q| | | |]|]; simpl;
    split; try (intros (_ & [=]); fail); try (intros (_ & ? & [=]); fail).
  - intros (((((? & ?) & ?) & ?) & ?) & _). eauto 10.
  - intros ((? & ? & ? & ? & ?) & _). auto 10.
Qed.

(** X10: the validator calls [next()] exactly for a body whose five text
    fields are truthy and whose salary is a number that is not negative.
    An empty string is therefore turned down like a missing field, and a
    salary of zero is let through. *)
Theorem validator_accepts_iff req_body :
  validateCreateEmployee req_body = None
  ↔ text_fields_present req_body ∧ salary_nonneg req_body.
Proof.
  unfold validateCreateEmployee, salary_nonneg.
  match goal with |- context [if ?c then _ else _] => destruct c eqn:Hguard end.
  - split; [done|]. intros [Htext (q & Hq & _)].
    apply not_false_iff_true in Hguard. destruct Hguard.
    apply first_guard_false. eauto.
  - apply first_guard_false in Hguard as (Htext & q & Hq).
    unfold prop. rewrite Hq. simpl default.
    destruct (lt_number (VNum q) 0) eqn:Hlt.
    + split; [done|]. intros [_ (q' & [= <-] & Hpos)].
      apply lt_number_zero_false in Hpos. congruence.
    + apply lt_number_zero_false in Hlt. split; [eauto|done].
Qed.

(** X11: the two answers of the validator.  A body with a falsy text field
    or a salary that is not a number gets the missing-fields message, also
    when its salary is negative; the salary message is for a body that has
    the five text fields and a negative number as salary. *)
Theorem validator_messages req_body :
  (¬ text_fields_present req_body ∨ (∀ q : Q, req_body !! "salary" ≠ Some (VNum q)) →
     validateCreateEmployee req_body
       = Some (Response 400 (error_body
           "Missing required fields: firstName, lastName, email, position, department, salary")))
  ∧ (∀ q : Q, text_fields_present req_body →
       req_body !! "salary" = Some (VNum q) → (q < 0)%Q →
       validateCreateEmployee req_body
         = Some (Response 400 (error_body "Salary must be a positive number"))).
Proof.
  unfold validateCreateEmployee. split.
  - intros Hbad.
    match goal with |- context [if ?c then _ else _] => destruct c eqn:Hguard end;
      [done|].
    apply first_guard_false in Hguard as (Htext & q & Hq).
    destruct Hbad as [Hbad|Hbad]; [by destruct Hbad | by destruct (Hbad q)].
  - intros q Htext Hq Hneg.
    match goal with |- context [if ?c then _ else _] => destruct c eqn:Hguard end.
    + apply not_false_iff_true in Hguard. destruct Hguard.
      apply first_guard_false. eauto.
    + unfold prop. rewrite Hq. simpl default.
      by rewrite negative_lt_zero.
Qed.

End validator.

Lemma validator_accepts_iff_witness :
  validateCreateEmployee john = None.
Proof.
  apply validator_accepts_iff. split.
  - repeat split; by_evaluation.
  - exists 75000%Q. split; [by_evaluation | done].
Defined.

Lemma validator_messages_witness :
  validateCreateEmployee only_first_name
    = Some (Response 400 (error_body
        "Missing required fields: firstName, lastName, email, position, department, salary"))
  ∧ validateCreateEmployee john_underpaid
      = Some (Response 400 (error_body "Salary must be a positive number")).
Proof.
  destruct (validator_messages only_first_name) as [Hmissing _].
  destruct (validator_messages john_underpaid) as [_ Hnegative].
  split.
  - apply Hmissing. right. intros q Hq.
    assert (only_first_name !! "salary" = None) as Hnone by by_evaluation.
    rewrite Hnone in Hq. discriminate Hq.
  - apply (Hnegative (-1)%Q).
    + repeat split; by_evaluation.
    + by_evaluation.
    + done.
Defined.

(** ** The routes, one request after another *)

Section es_map_entries.
Context {V : Type}.
Implicit Types (m : EsMap.t V) (k : value) (v : V).

Lemma delete_false_same k m :
  (EsMap.delete k m).1 = false → (EsMap.delete k m).2 = m.
Proof.
  induction m as [|[k' v'] m IH]; simpl; [done|].
  destruct (same_value_zero k' k); simpl; [done|]. intros ?. by rewrite IH.
Qed.

Lemma entries_set (id : string) v m (x : value * V) :
  x ∈ EsMap.set (VStr id) v m → x ∈ m ∨ x = (VStr id, v).
Proof.
  induction m as [|[k' v'] m IH]; simpl.
  - rewrite list_elem_of_singleton. auto.
  - destruct (same_value_zero k' (VStr id)) eqn:E; rewrite !elem_of_cons.
    + apply svz_string_l in E as ->. tauto.
    + intros [?|?%IH]; tauto.
Qed.

Lemma entries_delete k m (x : value * V) : x ∈ (EsMap.delete k m).2 → x ∈ m.
Proof.
  induction m as [|[k' v'] m IH]; simpl; [done|].
  destruct (same_value_zero k' k); simpl; rewrite !elem_of_cons; tauto.
Qed.

End es_map_entries.

Section routes.
Implicit Types (s : store) (id uuid : string) (e req_body : obj) (r : request).

Lemma delete_found s id :
  EsMap.wf s = true → VStr id ∈ EsMap.keys s →
  (delete id s).1 = true ∧ findById id (delete id s).2 = None.
Proof.
  intros Hwf [e (s1 & s2 & -> & Hs1)%findById_split]%key_get_Some.
  unfold delete, findById. rewrite delete_at by auto using svz_string_refl.
  simpl. split; [done|]. rewrite get_app, Hs1. by eapply wf_get_after.
Qed.

Lemma post_valid uuid now req_body s :
  validateCreateEmployee req_body = None →
  handle (POST uuid now req_body) s
    = (Response 201 (VObj (create uuid now req_body s).1),
       (create uuid now req_body s).2).
Proof. intros Hvalid. simpl. unfold post_employees. by rewrite Hvalid. Qed.

(** X12: a create request that passes the validator, with a body of the
    creatable fields and a generated uuid that is the key of no entry, is
    answered 201 with the new record, and GET of that uuid is then answered
    200 with the same record. *)
Theorem post_then_get s uuid now req_body :
  validateCreateEmployee req_body = None →
  dom req_body ⊆ creatable_fields → VStr uuid ∉ EsMap.keys s →
  (handle (POST uuid now req_body) s).1
    = Response 201 (VObj (create uuid now req_body s).1)
  ∧ (handle (GET uuid) (handle (POST uuid now req_body) s).2).1
      = Response 200 (VObj (create uuid now req_body s).1).
Proof.
  intros Hvalid Hid%creatable_no_id Hfresh%not_key_get_None.
  rewrite post_valid by done. split; [done|]. cbn [fst snd handle].
  unfold get_employee, findById. rewrite create_append by done.
  rewrite get_app, Hfresh. simpl. by rewrite svz_string_refl.
Qed.

(** X13: in a table without repeated keys, DELETE of a stored id is
    answered 200; GET of that id is then answered 404, and a second DELETE
    is answered 404 and changes nothing. *)
Theorem delete_then_get s id :
  EsMap.wf s = true → VStr id ∈ EsMap.keys s →
  (handle (DELETE id) s).1
    = Response 200 (VObj {["message" := VStr "Employee deleted successfully"]})
  ∧ (handle (GET id) (handle (DELETE id) s).2).1
      = Response 404 (error_body "Employee not found")
  ∧ handle (DELETE id) (handle (DELETE id) s).2
      = (Response 404 (error_body "Employee not found"), (handle (DELETE id) s).2).
Proof.
  intros Hwf Hin. destruct (delete_found s id Hwf Hin) as [Htrue Hgone].
  assert (handle (DELETE id) s
          = (Response 200 (VObj {["message" := VStr "Employee deleted successfully"]}),
             (delete id s).2)) as Hdel.
  { cbn [handle]. unfold delete_employee. by rewrite Htrue. }
  rewrite Hdel. cbn [fst snd handle]. split_and!.
  - done.
  - unfold get_employee. by rewrite Hgone.
  - assert (delete id (delete id s).2 = (false, (delete id s).2)) as Hagain.
    { unfold delete at 1. apply delete_fresh. exact Hgone. }
    unfold delete_employee. by rewrite Hagain.
Qed.

(** X14: for an id that is the key of no entry, GET, PUT and DELETE are
    each answered 404 with the error [Employee not found], and the table is
    left as it was. *)
Theorem unknown_id_404 s id req_body :
  VStr id ∉ EsMap.keys s →
  handle (GET id) s = (Response 404 (error_body "Employee not found"), s)
  ∧ handle (PUT id req_body) s = (Response 404 (error_body "Employee not found"), s)
  ∧ handle (DELETE id) s = (Response 404 (error_body "Employee not found"), s).
Proof.
  intros Hnone%not_key_get_None. cbn [handle]. split_and!.
  - unfold get_employee, findById. by rewrite Hnone.
  - unfold put_employee, update. by rewrite Hnone.
  - unfold delete_employee, delete. by rewrite delete_fresh.
Qed.

(** X15: PUT of a stored id is answered 200 with the merge of the stored
    record and the body, and GET of that id is then answered 200 with that
    same merged record. *)
Theorem put_then_get s id e req_body :
  findById id s = Some e →
  (handle (PUT id req_body) s).1 = Response 200 (VObj (spread e req_body))
  ∧ (handle (GET id) (handle (PUT id req_body) s).2).1
      = Response 200 (VObj (spread e req_body)).
Proof.
  intros Hfind. rewrite (put_stores_merge id e req_body s Hfind).
  split; [done|]. cbn [fst snd handle]. unfold get_employee, findById.
  by rewrite get_set_same.
Qed.

(** X16: a request that is answered with status 400 or above leaves the
    table as it was. *)
Theorem errors_leave_table r s :
  400 ≤ status (handle r s).1 → (handle r s).2 = s.
Proof.
  destruct r as [id|uuid now req_body|id req_body|id|]; cbn [handle].
  - unfold get_employee. by destruct (findById id s).
  - unfold post_employees.
    destruct (validateCreateEmployee req_body); [done|]. simpl. lia.
  - unfold put_employee, update.
    destruct (EsMap.get (VStr id) s); simpl; [lia | done].
  - unfold delete_employee, delete.
    destruct (EsMap.delete (VStr id) s).1 eqn:E; simpl; [lia|].
    intros _. by apply delete_false_same.
  - done.
Qed.

(** X17: a sequence of requests without a PUT keeps every salary in the
    table a non-negative number. *)
Theorem serve_salaries_nonneg (rs : list request) s :
  forallb not_put rs = true → salaries_nonneg s → salaries_nonneg (serve rs s).
Proof.
  revert s. induction rs as [|r rs IH]; intros s Hrs Hs; [done|].
  simpl in Hrs. apply andb_true_iff in Hrs as [Hr Hrs].
  unfold serve. cbn [fold_left]. apply IH; [done|].
  apply handle_salaries_nonneg; [|done].
  intros id req_body ->. discriminate Hr.
Qed.

Lemma handle_own_id r s :
  carries_no_id r = true → stored_under_own_id s →
  stored_under_own_id (handle r s).2.
Proof.
  intros Hr Hs. destruct r as [id|uuid now req_body|id req_body|id|]; cbn [handle].
  - unfold get_employee. by destruct (findById id s).
  - unfold post_employees.
    destruct (validateCreateEmployee req_body); [done|]. cbn [snd].
    simpl in Hr. apply bool_decide_eq_true in Hr.
    change ((create uuid now req_body s).2) with
      (EsMap.set (prop (create uuid now req_body s).1 "id")
                 (create uuid now req_body s).1 s).
    pose proof (create_id uuid now req_body s Hr) as Hid. rewrite Hid.
    intros k e [Hin|[= -> ->]]%entries_set; [by apply Hs|].
    exists uuid. split; [done|]. rewrite !lookup_insert_ne by done.
    unfold spread. by rewrite lookup_union_r, lookup_singleton_eq.
  - unfold put_employee, update.
    destruct (EsMap.get (VStr id) s) as [e0|] eqn:Hfind; [|done]. cbn [fst snd].
    simpl in Hr. apply bool_decide_eq_true in Hr.
    intros k e [Hin|[= -> ->]]%entries_set; [by apply Hs|].
    exists id. split; [done|].
    apply findById_split in Hfind as (s1 & s2 & Hsplit & _).
    destruct (Hs (VStr id) e0) as (id' & [= <-] & He0).
    { rewrite Hsplit. set_solver. }
    unfold spread. by rewrite lookup_union_r.
  - unfold delete_employee, delete.
    destruct (EsMap.delete (VStr id) s).1; cbn [snd];
      intros k e Hin%entries_delete; by apply Hs.
  - done.
Qed.

(** X18: when no request body has an [id] property, as in the declared
    body types, a sequence of requests keeps every record stored under a
    string key that is the record's own [id]. *)
Theorem serve_own_id (rs : list request) s :
  forallb carries_no_id rs = true → stored_under_own_id s →
  stored_under_own_id (serve rs s).
Proof.
  revert s. induction rs as [|r rs IH]; intros s Hrs Hs; [done|].
  simpl in Hrs. apply andb_true_iff in Hrs as [Hr Hrs].
  unfold serve. cbn [fold_left]. apply IH; [done|]. by apply handle_own_id.
Qed.

End routes.

Lemma post_then_get_witness :
  (handle (POST "emp-3" 1751582907000 john) store2).1
    = Response 201 (VObj (create "emp-3" 1751582907000 john store2).1)
  ∧ (handle (GET "emp-3") (handle (POST "emp-3" 1751582907000 john) store2).2).1
      = Response 200 (VObj (create "emp-3" 1751582907000 john store2).1).
Proof.
  apply post_then_get;
    [by_evaluation | apply (bool_decide_unpack _); vm_compute; exact I | not_a_key].
Defined.

Lemma delete_then_get_witness :
  (handle (DELETE "emp-1") store2).1
    = Response 200 (VObj {["message" := VStr "Employee deleted successfully"]})
  ∧ (handle (GET "emp-1") (handle (DELETE "emp-1") store2).2).1
      = Response 404 (error_body "Employee not found")
  ∧ handle (DELETE "emp-1") (handle (DELETE "emp-1") store2).2
      = (Response 404 (error_body "Employee not found"),
         (handle (DELETE "emp-1") store2).2).
Proof. apply delete_then_get; [by_evaluation | a_key]. Defined.

Lemma unknown_id_404_witness :
  handle (GET "non-existent-id") store2
    = (Response 404 (error_body "Employee not found"), store2)
  ∧ handle (PUT "non-existent-id" raise) store2
      = (Response 404 (error_body "Employee not found"), store2)
  ∧ handle (DELETE "non-existent-id") store2
      = (Response 404 (error_body "Employee not found"), store2).
Proof. apply unknown_id_404. not_a_key. Defined.

Lemma put_then_get_witness :
  (handle (PUT "emp-1" raise) store2).1
    = Response 200 (VObj (spread (create "emp-1" 1751582905508 john []).1 raise))
  ∧ (handle (GET "emp-1") (handle (PUT "emp-1" raise) store2).2).1
      = Response 200 (VObj (spread (create "emp-1" 1751582905508 john []).1 raise)).
Proof. apply put_then_get. by_evaluation. Defined.

Lemma errors_leave_table_witness :
  (handle (POST "emp-3" 1751582907000 only_first_name) store2).2 = store2.
Proof. apply errors_leave_table. apply Z.leb_le. by_evaluation. Defined.

(** [create] keeps the salaries non-negative when the payload's is. *)
Lemma create_salaries_nonneg uuid now (employeeData : obj) (s : store) :
  salary_nonneg employeeData → salaries_nonneg s →
  salaries_nonneg (create uuid now employeeData s).2.
Proof.
  intros Hdata Hs e [->|He]%values_set; [|by apply Hs].
  by apply (create_keeps_salary uuid now employeeData s).
Qed.

Lemma store2_salaries_nonneg : salaries_nonneg store2.
Proof.
  unfold store2, store1. apply create_salaries_nonneg.
  { exists 85000%Q. split; [by_evaluation | done]. }
  apply create_salaries_nonneg.
  { exists 75000%Q. split; [by_evaluation | done]. }
  intros e He. by apply elem_of_nil in He.
Qed.

Lemma serve_salaries_nonneg_witness :
  salaries_nonneg (serve create_and_delete store2).
Proof.
  apply serve_salaries_nonneg; [by_evaluation | exact store2_salaries_nonneg].
Defined.

(** The table that the sample requests leave holds two records. *)
Example create_and_delete_leaves_two :
  EsMap.keys (serve create_and_delete store2) = [VStr "emp-2"; VStr "emp-3"]
  ∧ findById "emp-3" (serve create_and_delete store2) ≫= (.!! "salary")
      = Some (VNum 75000).
Proof. split; by_evaluation. Qed.

Lemma serve_own_id_witness :
  stored_under_own_id (serve create_and_raise []).
Proof.
  apply serve_own_id; [by_evaluation|].
  intros k e He. by apply elem_of_nil in He.
Defined.

(** ** Seeding, whatever the generators return *)

Lemma count_is_length (s : store) : count s = length s.
Proof. reflexivity. Qed.

Lemma findById_get (id : string) (s : store) :
  findById id s = EsMap.get (VStr id) s.
Proof. reflexivity. Qed.

Section seeding_any.
Variable draw : nat → seed_draw.

Lemma seed_loop_from (i fuel : nat) (s : store) (x : value * obj) :
  x ∈ seed_loop draw i fuel s →
  x ∈ s ∨ ∃ j, (i ≤ j < i + fuel)%nat ∧ x = seed_entry (draw j).
Proof.
  revert i s. induction fuel as [|fuel IH]; intros i s; simpl; [auto|].
  rewrite seed_employee_id.
  intros [[Hin| ->]%entries_set|(j & Hj & ->)]%IH.
  - by left.
  - right. exists i. split; [lia|]. unfold seed_entry.
    by rewrite seed_employee_id.
  - right. exists j. split; [lia|done].
Qed.

Lemma seed_loop_length (i fuel : nat) (s : store) :
  (length (seed_loop draw i fuel s) ≤ length s + fuel)%nat.
Proof.
  revert i s. induction fuel as [|fuel IH]; intros i s; simpl; [lia|].
  etrans; [apply IH|].
  assert (∀ (k : value) (v : obj) (m : store),
            (length (EsMap.set k v m) ≤ S (length m))%nat) as Hset.
  { intros k v m. induction m as [|[k' v'] m IHm]; simpl; [done|].
    destruct (same_value_zero k' k); simpl; lia. }
  pose proof (Hset (prop (seed_employee (draw i)) "id") (seed_employee (draw i)) s).
  lia.
Qed.

Lemma seed_loop_last (n : nat) :
  EsMap.get (VStr (d_uuid (draw n))) (seed_loop draw 0 (S n) [])
    = Some (seed_employee (draw n)).
Proof. rewrite seed_loop_snoc, Nat.add_0_l. apply get_set_same. Qed.

Lemma new_last :
  findById (d_uuid (draw (Z.to_nat 9999))) (new draw)
    = Some (seed_employee (draw (Z.to_nat 9999))).
Proof.
  unfold findById, new, seedData. rewrite seed_count_succ.
  apply seed_loop_last.
Qed.

Lemma new_from_draws (k : value) (e : obj) :
  (k, e) ∈ new draw →
  ∃ i, (i < Z.to_nat 10000)%nat ∧ k = VStr (d_uuid (draw i))
       ∧ e = seed_employee (draw i).
Proof.
  unfold new, seedData. intros Hin.
  apply (seed_loop_from 0 seed_count []) in Hin as [Hin|(j & Hj & Heq)].
  - apply elem_of_nil in Hin. destruct Hin.
  - exists j. unfold seed_entry in Heq. rewrite seed_employee_id in Heq.
    injection Heq as -> ->. unfold seed_count in Hj.
    split; [lia|]. split; reflexivity.
Qed.

Lemma new_at_most : (count (new draw) ≤ Z.to_nat 10000)%nat.
Proof.
  rewrite count_is_length. unfold new, seedData.
  etrans; [apply seed_loop_length|]. unfold seed_count. apply Nat.le_refl.
Qed.

Lemma new_at_least : (1 ≤ count (new draw))%nat.
Proof.
  pose proof new_last as Hlast. rewrite findById_get in Hlast.
  apply get_Some_split in Hlast as (s1 & k' & s2 & Hs & _ & _).
  rewrite count_is_length, Hs, length_app, length_cons. lia.
Qed.

(** X19: whatever uuids and values the generators return, equal uuids
    included, the seeded table has between 1 and 10000 records; each one is
    the record of one of the 10000 rounds, stored under its own id; and the
    record of the last round is found under its uuid, a later round taking
    the place of an earlier one that drew the same uuid. *)
Theorem seed_any_draws :
  (1 ≤ count (new draw) ≤ Z.to_nat 10000)%nat
  ∧ stored_under_own_id (new draw)
  ∧ (∀ k e, (k, e) ∈ new draw →
       ∃ i, (i < Z.to_nat 10000)%nat ∧ k = VStr (d_uuid (draw i))
            ∧ e = seed_employee (draw i))
  ∧ findById (d_uuid (draw (Z.to_nat 9999))) (new draw)
      = Some (seed_employee (draw (Z.to_nat 9999))).
Proof.
  split; [split; [exact new_at_least | exact new_at_most]|].
  split; [|split; [exact new_from_draws | exact new_last]].
  intros k e (i & _ & -> & ->)%new_from_draws. exists (d_uuid (draw i)).
  split; reflexivity.
Qed.

Lemma length_set_present (id : string) (v : obj) (m : store) :
  is_Some (EsMap.get (VStr id) m) → length (EsMap.set (VStr id) v m) = length m.
Proof.
  intros Hin%(keys_set_present _ v). unfold EsMap.keys in Hin.
  by rewrite <- (length_fmap fst (EsMap.set _ _ _)), Hin, length_fmap.
Qed.

(** Every uuid drawn so far is a key of the table. *)
Lemma seed_loop_present (n j : nat) :
  (j < n)%nat →
  is_Some (EsMap.get (VStr (d_uuid (draw j))) (seed_loop draw 0 n [])).
Proof.
  induction n as [|n IH]; [lia|]. intros Hj.
  rewrite seed_loop_snoc, Nat.add_0_l.
  destruct (decide (d_uuid (draw j) = d_uuid (draw n))) as [->|Hne].
  - rewrite get_set_same. by eexists.
  - rewrite get_set_other by done.
    destruct (decide (j = n)) as [->|?]; [done|]. apply IH. lia.
Qed.

(** A full table means that no round drew a uuid of an earlier round. *)
Lemma seed_loop_full_distinct (n : nat) :
  length (seed_loop draw 0 n []) = n →
  ∀ i j, (i < n)%nat → (j < n)%nat → d_uuid (draw i) = d_uuid (draw j) → i = j.
Proof.
  induction n as [|n IH]; [lia|].
  rewrite seed_loop_snoc, Nat.add_0_l. intros Hfull.
  pose proof (seed_loop_length 0 n []) as Hmost.
  change (length (@nil (value * obj)) + n)%nat with n in Hmost.
  destruct (EsMap.get (VStr (d_uuid (draw n))) (seed_loop draw 0 n [])) eqn:Hlast.
  { rewrite length_set_present in Hfull by (by rewrite Hlast). lia. }
  rewrite set_fresh, length_app in Hfull by done. simpl in Hfull.
  assert (∀ j, (j < n)%nat → d_uuid (draw j) ≠ d_uuid (draw n)) as Hnew.
  { intros j Hj Heq. destruct (seed_loop_present n j Hj) as [e He].
    rewrite Heq in He. congruence. }
  intros i j Hi Hj Heq.
  destruct (decide (i = n)) as [->|?], (decide (j = n)) as [->|?]; try done.
  - symmetry in Heq. apply Hnew in Heq; [done|lia].
  - apply Hnew in Heq; [done|lia].
  - apply IH; [lia..|done].
Qed.

(** X25: the seeded table has exactly 10000 records exactly when the
    10000 generated uuids are pairwise distinct; a repeated uuid leaves
    fewer. *)
Theorem seed_full_iff_distinct :
  count (new draw) = Z.to_nat 10000
  ↔ ∀ i j, (i < Z.to_nat 10000)%nat → (j < Z.to_nat 10000)%nat →
           d_uuid (draw i) = d_uuid (draw j) → i = j.
Proof.
  rewrite count_is_length. unfold new, seedData.
  change (Z.to_nat 10000) with seed_count. generalize seed_count. intros n.
  split.
  - apply seed_loop_full_distinct.
  - intros Hinj. rewrite seed_loop_entries.
    + by rewrite length_app, length_fmap, length_seq.
    + done.
    + intros j j' Hj Hj'. apply Hinj; lia.
Qed.

End seeding_any.

(** ** The listing route *)

Section listing.
Implicit Types (s : store) (page limit : Z) (query_page query_limit : option string).

(** On integers the route's [findAll] is the store's. *)
Lemma findAll_js_int s page limit :
  findAll_js (Int page) (Int limit) s = of_paginated (findAll page limit s).
Proof. reflexivity. Qed.

Lemma slice_js_nan {A} (l : list A) : slice_js l NaN NaN = [].
Proof.
  unfold slice_js, relative_index.
  replace (Z.min 0 (Z.of_nat (length l))) with 0 by lia. done.
Qed.

(** What the three tests of the guard say of a parsed number. *)
Lemma num_lt_one (a : num) :
  num_lt a (Int 1) = true ↔ a = Inf true ∨ ∃ x, a = Int x ∧ x < 1.
Proof.
  destruct a as [|x|[|]]; simpl.
  - split; [done | by intros [[=]|(x & [=] & _)]].
  - rewrite Z.ltb_lt. split; [eauto | by intros [[=]|(y & [= ->] & ?)]].
  - split; [auto | done].
  - split; [done | by intros [[=]|(x & [=] & _)]].
Qed.

Lemma hundred_lt_num (a : num) :
  num_lt (Int 100) a = true ↔ a = Inf false ∨ ∃ x, a = Int x ∧ 100 < x.
Proof.
  destruct a as [|x|[|]]; simpl.
  - split; [done | by intros [[=]|(x & [=] & _)]].
  - rewrite Z.ltb_lt. split; [eauto | by intros [[=]|(y & [= ->] & ?)]].
  - split; [done | by intros [[=]|(x & [=] & _)]].
  - split; [auto | done].
Qed.

(** X20: the listing route answers 400, with the zeroed body, exactly when
    [page] parses to a number below 1 (an integer below 1, or minus
    infinity) or [limit] parses to a number below 1 or above 100 (an
    integer outside 1 to 100, or an infinity). *)
Theorem get_employees_rejects_iff query_page query_limit s :
  get_employees query_page query_limit s = (ListResponse 400 rejected_body, s)
  ↔ (parseInt (or_default query_page "1") = Inf true
     ∨ ∃ page, parseInt (or_default query_page "1") = Int page ∧ page < 1)
    ∨ (∃ negative, parseInt (or_default query_limit "10") = Inf negative)
    ∨ (∃ limit, parseInt (or_default query_limit "10") = Int limit
                ∧ (limit < 1 ∨ 100 < limit)).
Proof.
  unfold get_employees.
  match goal with |- context [if ?c then _ else _] => destruct c eqn:Hguard end.
  - split; [intros _|done].
    apply orb_true_iff in Hguard as [[Hp|Hl]%orb_true_iff|Hl].
    + left. by apply num_lt_one.
    + right. apply num_lt_one in Hl as [Hl|(l & ? & ?)]; eauto 6.
    + right. apply hundred_lt_num in Hl as [Hl|(l & ? & ?)]; eauto 6.
  - split; [done|]. intros Hbad. exfalso.
    apply orb_false_iff in Hguard as [[Hp Hl1]%orb_false_iff Hl2].
    apply not_true_iff_false in Hp, Hl1, Hl2.
    destruct Hbad as [Hbad|[([|] & Hl)|(l & Hl & [?|?])]].
    + by apply Hp, num_lt_one.
    + apply Hl1, num_lt_one. auto.
    + apply Hl2, hundred_lt_num. auto.
    + apply Hl1, num_lt_one. eauto.
    + apply Hl2, hundred_lt_num. eauto.
Qed.

(** X21: when [page] parses to an integer of at least 1 (and within the
    integers a double holds exactly, up to 2^53) and [limit] to an integer
    from 1 to 100, the route answers 200 with what the store's [findAll]
    returns for them, and hands back the table unchanged. *)
Theorem get_employees_valid query_page query_limit s page limit :
  parseInt (or_default query_page "1") = Int page →
  parseInt (or_default query_limit "10") = Int limit →
  1 ≤ page ≤ 9007199254740992 → 1 ≤ limit ≤ 100 →
  get_employees query_page query_limit s
    = (ListResponse 200 (of_paginated (findAll page limit s)), s).
Proof.
  intros Hp Hl Hpage Hlimit. unfold get_employees. rewrite Hp, Hl.
  cbn [num_lt].
  replace (page <? 1) with false by (symmetry; apply Z.ltb_ge; lia).
  replace (limit <? 1) with false by (symmetry; apply Z.ltb_ge; lia).
  replace (100 <? limit) with false by (symmetry; apply Z.ltb_ge; lia).
  cbn [orb]. by rewrite findAll_js_int.
Qed.

(** X22: a [page] or [limit] parameter that is absent or empty stands for
    page 1 and limit 10. *)
Theorem get_employees_defaults query_page query_limit s :
  query_page = None ∨ query_page = Some "" →
  query_limit = None ∨ query_limit = Some "" →
  get_employees query_page query_limit s
    = (ListResponse 200 (of_paginated (findAll 1 10 s)), s).
Proof. by intros [-> | ->] [-> | ->]. Qed.

(** X23: a [page] parameter that does not start with a number parses to
    [NaN] and passes the guard: with a [limit] from 1 to 100 the route
    answers 200 with no record at all, [hasNext] and [hasPrev] false, and
    [total] and [totalPages] as for any page. *)
Theorem get_employees_nan_page query_page query_limit s limit :
  parseInt (or_default query_page "1") = NaN →
  parseInt (or_default query_limit "10") = Int limit →
  1 ≤ limit ≤ 100 →
  get_employees query_page query_limit s
    = (ListResponse 200
         (PaginatedJs []
            (PaginationJs NaN (Int limit) (Int (Z.of_nat (count s)))
               (Int (totalPages (pagination (findAll 1 limit s)))) false false)),
       s).
Proof.
  intros Hp Hl Hlimit. unfold get_employees. rewrite Hp, Hl.
  cbn [num_lt].
  replace (limit <? 1) with false by (symmetry; apply Z.ltb_ge; lia).
  replace (100 <? limit) with false by (symmetry; apply Z.ltb_ge; lia).
  cbn [orb]. unfold findAll_js.
  cbn [num_sub num_neg num_add num_mul num_lt ceil_quot].
  by rewrite slice_js_nan, findAll_totalPages, values_length.
Qed.

(** X24: a [limit] parameter that does not start with a number parses to
    [NaN] and passes the guard: unless [page] parses to an integer below 1,
    the route answers 200 with no record at all; [limit] and [totalPages]
    are [NaN], [total] is the size of the table and [hasNext] is false. *)
Theorem get_employees_nan_limit query_page query_limit s :
  parseInt (or_default query_limit "10") = NaN →
  num_lt (parseInt (or_default query_page "1")) (Int 1) = false →
  list_status (get_employees query_page query_limit s).1 = 200
  ∧ js_data (list_body (get_employees query_page query_limit s).1) = []
  ∧ js_limit (js_pagination (list_body (get_employees query_page query_limit s).1))
      = NaN
  ∧ js_total (js_pagination (list_body (get_employees query_page query_limit s).1))
      = Int (Z.of_nat (count s))
  ∧ js_totalPages (js_pagination (list_body (get_employees query_page query_limit s).1))
      = NaN
  ∧ js_hasNext (js_pagination (list_body (get_employees query_page query_limit s).1))
      = false
  ∧ (get_employees query_page query_limit s).2 = s.
Proof.
  intros Hl Hp. unfold get_employees. rewrite Hl, Hp.
  cbn [num_lt orb fst snd list_status list_body].
  unfold findAll_js. rewrite values_length.
  cbn [js_data js_pagination js_limit js_total js_totalPages js_hasNext].
  assert (num_add (num_mul (num_sub (parseInt (or_default query_page "1")) (Int 1)) NaN) NaN
          = NaN
          ∧ num_mul (num_sub (parseInt (or_default query_page "1")) (Int 1)) NaN = NaN
          ∧ num_lt (parseInt (or_default query_page "1")) (ceil_quot (Int (Z.of_nat (count s))) NaN)
            = false) as (-> & -> & ->).
  { by destruct (parseInt (or_default query_page "1")) as [|page|[|]]. }
  by rewrite slice_js_nan.
Qed.

End listing.

Lemma get_employees_rejects_iff_witness :
  get_employees query_zero query_zero store2 = (ListResponse 400 rejected_body, store2).
Proof.
  apply get_employees_rejects_iff. left. right. exists 0.
  split; [by_evaluation | lia].
Defined.

Lemma get_employees_valid_witness :
  get_employees query_two None store2
    = (ListResponse 200 (of_paginated (findAll 2 10 store2)), store2).
Proof. apply get_employees_valid; [by_evaluation | by_evaluation | lia | lia]. Defined.

Lemma get_employees_defaults_witness :
  get_employees None (Some "") store2
    = (ListResponse 200 (of_paginated (findAll 1 10 store2)), store2).
Proof. apply get_employees_defaults; [by left | by right]. Defined.

Lemma get_employees_nan_page_witness :
  get_employees query_word query_two store2
    = (ListResponse 200
         (PaginatedJs []
            (PaginationJs NaN (Int 2) (Int (Z.of_nat (count store2)))
               (Int (totalPages (pagination (findAll 1 2 store2)))) false false)),
       store2).
Proof. apply get_employees_nan_page; [by_evaluation | by_evaluation | lia]. Defined.

Lemma get_employees_nan_limit_witness :
  list_status (get_employees query_two query_word store2).1 = 200
  ∧ js_data (list_body (get_employees query_two query_word store2).1) = []
  ∧ js_limit (js_pagination (list_body (get_employees query_two query_word store2).1))
      = NaN
  ∧ js_total (js_pagination (list_body (get_employees query_two query_word store2).1))
      = Int (Z.of_nat (count store2))
  ∧ js_totalPages (js_pagination (list_body (get_employees query_two query_word store2).1))
      = NaN
  ∧ js_hasNext (js_pagination (list_body (get_employees query_two query_word store2).1))
      = false
  ∧ (get_employees query_two query_word store2).2 = store2.
Proof. apply get_employees_nan_limit; by_evaluation. Defined.

(** White space before the number is skipped whatever its encoding, an
    integer beyond 2^53 is the nearest double, and a number of 400 digits
    is infinite: such a page is not rejected and has no record. *)
Example parseInt_samples :
  parseInt (or_default query_nbsp_two "1") = Int 2
  ∧ parseInt "9007199254740993" = Int 9007199254740992
  ∧ parseInt (or_default query_huge "1") = Inf false
  ∧ list_status (get_employees query_huge query_two store2).1 = 200
  ∧ js_data (list_body (get_employees query_huge query_two store2).1) = [].
Proof. split_and!; by_evaluation. Qed.
